(** * Multi-tenant authorization gateway (examples/multi-tenant/app.py)

    A shallow embedding of the Flask application: the bearer-token
    decorator [require_auth], the OPA client [check_opa_permission], the
    login route and the resource and tenant routes, followed by the
    properties of the request-authorization pipeline.

    Python values that reach the program as JSON (request bodies, token
    claims, the OPA answer) are values of [pyval]; JSON numbers are
    integers here (floating point numbers are left out).  A string is
    held as its UTF-8 bytes; a string with a lone surrogate, which JSON
    admits and UTF-8 cannot encode, is a value of its own kind, and the
    keys of objects are taken to be free of them.  A handler is a
    computation in [M]: it reads the outside world of one request
    ([environ]), threads the module-level globals ([state]) and either
    returns a value or raises a Python exception. *)

From Stdlib Require Import ZArith Ascii String List Bool Lia.
From stdpp Require Import base option list strings gmap.

Import ListNotations.
Local Open Scope string_scope.
Local Open Scope Z_scope.
Local Set Warnings "-register-all".

(** ** Python values *)

Inductive pyval : Type :=
| PNone
| PBool (b : bool)
| PInt (n : Z)
| PStr (s : string)
| PList (xs : list pyval)
| PDict (kvs : list (string * pyval))
| PStrSurrogate (s : string).

(** [bool(v)], the test behind [if v], [not v] and [a or b]. *)
Definition truthy (v : pyval) : bool :=
  match v with
  | PNone => false
  | PBool b => b
  | PInt n => negb (n =? 0)
  | PStr s => negb (String.eqb s "")
  | PList xs => match xs with [] => false | _ :: _ => true end
  | PDict kvs => match kvs with [] => false | _ :: _ => true end
  | PStrSurrogate _ => true
  end.

(** Entry of a dict under a string key (keys of a dict are distinct). *)
Fixpoint dict_lookup (k : string) (kvs : list (string * pyval)) : option pyval :=
  match kvs with
  | [] => None
  | (k', v) :: rest => if String.eqb k k' then Some v else dict_lookup k rest
  end.

(** ** Exceptions

    An exception is represented by its class.  [mro] lists a class with
    its ancestors, as far as the [except] clauses of the program can tell
    them apart: the classes of [requests.exceptions] derive from
    [RequestException] (the decoding error of [Response.json] included),
    those of [jwt] from [InvalidTokenError], and [ExpiredSignatureError]
    is itself an [InvalidTokenError]. *)

Inductive exn_class : Type :=
| Exception
| AttributeError
| KeyError
| TypeError
| IndexError
| RequestException
| ConnectionError
| Timeout
| JSONDecodeError
| PyJWTError
| InvalidTokenError
| DecodeError
| InvalidSignatureError
| ExpiredSignatureError
| UnicodeEncodeError.

Definition exn_class_eqb (c d : exn_class) : bool :=
  match c, d with
  | Exception, Exception
  | AttributeError, AttributeError
  | KeyError, KeyError
  | TypeError, TypeError
  | IndexError, IndexError
  | RequestException, RequestException
  | ConnectionError, ConnectionError
  | Timeout, Timeout
  | JSONDecodeError, JSONDecodeError
  | PyJWTError, PyJWTError
  | InvalidTokenError, InvalidTokenError
  | DecodeError, DecodeError
  | InvalidSignatureError, InvalidSignatureError
  | ExpiredSignatureError, ExpiredSignatureError
  | UnicodeEncodeError, UnicodeEncodeError => true
  | _, _ => false
  end.

Definition mro (c : exn_class) : list exn_class :=
  match c with
  | Exception => [Exception]
  | AttributeError => [AttributeError; Exception]
  | KeyError => [KeyError; Exception]
  | TypeError => [TypeError; Exception]
  | IndexError => [IndexError; Exception]
  | RequestException => [RequestException; Exception]
  | ConnectionError => [ConnectionError; RequestException; Exception]
  | Timeout => [Timeout; RequestException; Exception]
  | JSONDecodeError => [JSONDecodeError; RequestException; Exception]
  | PyJWTError => [PyJWTError; Exception]
  | InvalidTokenError => [InvalidTokenError; PyJWTError; Exception]
  | DecodeError => [DecodeError; InvalidTokenError; PyJWTError; Exception]
  | InvalidSignatureError =>
      [InvalidSignatureError; DecodeError; InvalidTokenError; PyJWTError; Exception]
  | ExpiredSignatureError =>
      [ExpiredSignatureError; InvalidTokenError; PyJWTError; Exception]
  | UnicodeEncodeError => [UnicodeEncodeError; Exception]
  end.

Definition issubclass (c d : exn_class) : bool :=
  existsb (exn_class_eqb d) (mro c).

Inductive pyresult (A : Type) : Type :=
| Return (a : A)
| Raise (e : exn_class).
Arguments Return {A} a.
Arguments Raise {A} e.

(** ** Operations on values *)

(** [v.get(k, default)]: only a dict has the method. *)
Definition py_get (v : pyval) (k : string) (default : pyval) : pyresult pyval :=
  match v with
  | PDict kvs =>
      Return (match dict_lookup k kvs with Some x => x | None => default end)
  | _ => Raise AttributeError
  end.

(** [v[k]] for a string [k]. *)
Definition py_getitem (v : pyval) (k : string) : pyresult pyval :=
  match v with
  | PDict kvs =>
      match dict_lookup k kvs with Some x => Return x | None => Raise KeyError end
  | _ => Raise TypeError
  end.

(** [needle in hay] on strings. *)
Fixpoint substring_of (needle hay : string) : bool :=
  String.prefix needle hay
  || match hay with
     | EmptyString => false
     | String _ hay' => substring_of needle hay'
     end.

(** [k in v] for a string [k]: key of a dict, element of a list,
    substring of a string; other values are not iterable. *)
Definition py_contains (k : string) (v : pyval) : pyresult bool :=
  match v with
  | PDict kvs =>
      Return (match dict_lookup k kvs with Some _ => true | None => false end)
  | PList xs =>
      Return (existsb (fun x => match x with PStr s => String.eqb k s | _ => false end) xs)
  | PStr s | PStrSurrogate s => Return (substring_of k s)
  | _ => Raise TypeError
  end.

(** [s.split(sep)] for a separator of one character. *)
Fixpoint split (sep : ascii) (s : string) : list string :=
  match s with
  | EmptyString => [EmptyString]
  | String c s' =>
      if Ascii.eqb c sep then EmptyString :: split sep s'
      else match split sep s' with
           | [] => [String c EmptyString]
           | w :: ws => String c w :: ws
           end
  end.

(** [xs[i]] on a list of strings. *)
Definition list_getitem (xs : list string) (i : nat) : pyresult string :=
  match nth_error xs i with
  | Some x => Return x
  | None => Raise IndexError
  end.

(** ** Records of the in-memory stores

    The dicts of [users], [tenants] and [resources] always carry the same
    keys, so they are records; the free-form values a client supplies
    ([name] and [type] of a resource) stay [pyval]s. *)

Module User.
Record t : Type := mk {
  id : Z;
  username : string;
  password : string;
  tenant : string;
  role : string;
  name : string
}.
End User.

Module Tenant.
Record t : Type := mk {
  id : string;
  name : string;
  parent : option string;
  active : bool
}.

Definition to_py (x : t) : pyval :=
  PDict [("id", PStr (id x)); ("name", PStr (name x));
         ("parent", match parent x with Some p => PStr p | None => PNone end);
         ("active", PBool (active x))].
End Tenant.

Module Resource.
Record t : Type := mk {
  id : Z;
  tenant : string;
  name : pyval;
  type : pyval
}.

(** The dict itself, as it is serialised by [jsonify] and by the
    [json=] argument of [requests.post]. *)
Definition to_py (r : t) : pyval :=
  PDict [("id", PInt (id r)); ("tenant", PStr (tenant r));
         ("name", name r); ("type", type r)].

Definition set_name (v : pyval) (r : t) : t :=
  mk (id r) (tenant r) v (type r).

Definition set_type (v : pyval) (r : t) : t :=
  mk (id r) (tenant r) (name r) v.
End Resource.

(** ** The outside world of one request *)

(** What [requests.post] hands back: a status code and a body that
    [Response.json] either decodes or rejects. *)
Inductive http_body : Type :=
| NotJSON
| JSON (v : pyval).

Record http_response : Type := {
  status_code : Z;
  content : http_body
}.

(** What the token library sees in a bearer token under a given key:
    either not a token at all, or a claims object together with the
    verdict on its signature. *)
Inductive token_view : Type :=
| Undecodable
| Claims (payload : pyval) (signature_ok : bool).

Record environ : Type := {
  (** [request.headers.get('Authorization')] *)
  request_authorization : option string;
  (** [request.json], for a request whose body is JSON *)
  request_json : pyval;
  (** [requests.post(url, json=..., timeout=...)] *)
  requests_post : string -> pyval -> Z -> pyresult http_response;
  (** [datetime.utcnow()], in seconds since the epoch *)
  utcnow : Z;
  (** [hashlib.sha256(s.encode()).hexdigest()] *)
  sha256_hexdigest : string -> string;
  (** the segments of a token, read with a key *)
  jwt_segments : string -> string -> token_view;
  (** [jwt.encode(claims, key, algorithm='HS256')] *)
  jwt_encode : pyval -> string -> string
}.

(** ** Module-level globals

    [resources] and [next_resource_id] are the globals of the program;
    [opa_queries] records, oldest first, the JSON documents posted to the
    policy decision point. *)
Record state : Type := {
  resources : list Resource.t;
  next_resource_id : Z;
  opa_queries : list pyval
}.

Definition set_resources (rs : list Resource.t) (st : state) : state :=
  {| resources := rs;
     next_resource_id := next_resource_id st;
     opa_queries := opa_queries st |}.

Definition set_next_resource_id (n : Z) (st : state) : state :=
  {| resources := resources st;
     next_resource_id := n;
     opa_queries := opa_queries st |}.

Definition record_query (q : pyval) (st : state) : state :=
  {| resources := resources st;
     next_resource_id := next_resource_id st;
     opa_queries := opa_queries st ++ [q] |}.

(** ** Computations *)

Definition M (A : Type) : Type := environ -> state -> pyresult A * state.

Definition ret {A} (a : A) : M A := fun _ st => (Return a, st).

Definition bind {A B} (m : M A) (k : A -> M B) : M B :=
  fun e st =>
    match m e st with
    | (Return a, st') => k a e st'
    | (Raise x, st') => (Raise x, st')
    end.

Notation "'let*' x ':=' m 'in' k" := (bind m (fun x => k))
  (at level 10, x name, m at level 100, k at level 200,
   format "'[v' 'let*'  x  ':='  m  'in' '/' k ']'").
Notation "m ';;' k" := (bind m (fun _ => k))
  (at level 100, k at level 200, right associativity).

Definition lift {A} (r : pyresult A) : M A := fun _ st => (r, st).

Definition ask {A} (proj : environ -> A) : M A := fun e st => (Return (proj e), st).

Definition get {A} (proj : state -> A) : M A := fun _ st => (Return (proj st), st).

Definition modify (f : state -> state) : M unit := fun _ st => (Return tt, f st).

(** [try: body except C1: h1 except C2: h2 ...]: the first clause whose
    class the raised exception is an instance of handles it. *)
Definition try_except {A} (body : M A) (handlers : list (exn_class * M A)) : M A :=
  fun e st =>
    match body e st with
    | (Return a, st') => (Return a, st')
    | (Raise x, st') =>
        match List.find (fun h => issubclass x (fst h)) handlers with
        | Some h => snd h e st'
        | None => (Raise x, st')
        end
    end.

(** A view function returns [jsonify(body)] or [(jsonify(body), code)]. *)
Record response : Type := {
  status : Z;
  body : pyval
}.

Definition jsonify (v : pyval) (code : Z) : response :=
  {| status := code; body := v |}.

Definition error (msg : string) : pyval := PDict [("error", PStr msg)].

(** ** The program *)

Definition SECRET_KEY : string := "demo-secret-change-in-production".

Definition OPA_URL : string :=
  "http://localhost:8181/v1/data/multitenant/authz/allow".

(** The credential directory; the stored password is the digest of the
    clear text, computed when the module is loaded. *)
Definition users_items (e : environ) : list (string * User.t) :=
  [ ("alice", User.mk 1 "alice" (sha256_hexdigest e "alice123") "acme" "admin" "Alice Admin");
    ("bob", User.mk 2 "bob" (sha256_hexdigest e "bob123") "acme" "user" "Bob User");
    ("charlie",
     User.mk 3 "charlie" (sha256_hexdigest e "charlie123") "globex" "admin" "Charlie Admin");
    ("diana", User.mk 4 "diana" (sha256_hexdigest e "diana123") "globex" "user" "Diana User");
    ("root", User.mk 0 "root" (sha256_hexdigest e "root123") "system" "superadmin"
                     "Root Superadmin") ].

Definition users (e : environ) : gmap string User.t := list_to_map (users_items e).

Definition tenants_items : list (string * Tenant.t) :=
  [ ("acme", Tenant.mk "acme" "Acme Corporation" None true);
    ("globex", Tenant.mk "globex" "Globex Inc" None true);
    ("system", Tenant.mk "system" "System" None true) ].

Definition tenants : gmap string Tenant.t := list_to_map tenants_items.

Definition initial_state : state :=
  {| resources :=
       [ Resource.mk 1 "acme" (PStr "Acme Q1 Report") (PStr "document");
         Resource.mk 2 "acme" (PStr "Acme Strategy") (PStr "document");
         Resource.mk 3 "globex" (PStr "Globex Financials") (PStr "spreadsheet");
         Resource.mk 4 "globex" (PStr "Globex Roadmap") (PStr "document") ];
     next_resource_id := 5;
     opa_queries := [] |}.

(** [users.get(k)]: a key that is no string names no user, and a list or
    a dict cannot be hashed. *)
Definition users_get (k : pyval) : M (option User.t) :=
  fun e st =>
    match k with
    | PStr s => (Return (users e !! s), st)
    | PList _ | PDict _ => (Raise TypeError, st)
    | _ => (Return None, st)
    end.

(** Modelled from the spec: [jwt.decode(token, key, algorithms=['HS256'])]
    of the PyJWT package, which is not part of the repository.  The
    signature is checked first, then the claims: they must form an object,
    and an expiry claim must be an integer that is not in the past. *)
Definition jwt_decode (token key : string) : M pyval :=
  fun e st =>
    match jwt_segments e key token with
    | Undecodable => (Raise DecodeError, st)
    | Claims payload signature_ok =>
        if negb signature_ok then (Raise InvalidSignatureError, st)
        else
          match payload with
          | PDict claims =>
              match dict_lookup "exp" claims with
              | None => (Return payload, st)
              | Some (PInt exp) =>
                  if exp <=? utcnow e then (Raise ExpiredSignatureError, st)
                  else (Return payload, st)
              | Some _ => (Raise DecodeError, st)
              end
          | _ => (Raise DecodeError, st)
          end
    end.

(** [require_auth(f)]: the decorated view.  [g.user] is handed to the
    wrapped view as its first argument; a [return] inside the [try] block
    is the left injection. *)
Definition require_auth {Args : Type} (f : User.t -> Args -> M response)
    (args : Args) : M response :=
  let* auth_header := ask request_authorization in
  match auth_header with
  | None => ret (jsonify (error "No token provided") 401)
  | Some auth_header =>
      if negb (truthy (PStr auth_header))
         || negb (String.prefix "Bearer " auth_header)
      then ret (jsonify (error "No token provided") 401)
      else
        let* token := lift (list_getitem (split " " auth_header) 1) in
        let* outcome :=
          try_except
            (let* payload := jwt_decode token SECRET_KEY in
             let* username := lift (py_getitem payload "username") in
             let* g_user := users_get username in
             match g_user with
             | None => ret (inl (jsonify (error "User not found") 401))
             | Some g_user => ret (inr g_user)
             end)
            [ (ExpiredSignatureError, ret (inl (jsonify (error "Token expired") 401)));
              (InvalidTokenError, ret (inl (jsonify (error "Invalid token") 401))) ] in
        match outcome with
        | inl resp => ret resp
        | inr g_user => f g_user args
        end
  end.

(** [requests.post]: the document sent is recorded. *)
Definition post (url : string) (json : pyval) (timeout : Z) : M http_response :=
  fun e st => (requests_post e url json timeout, record_query json st).

(** [response.json()] *)
Definition response_json (r : http_response) : pyresult pyval :=
  match content r with
  | JSON v => Return v
  | NotJSON => Raise JSONDecodeError
  end.

(** The [input] document of a permission check. *)
Definition input_data (g_user : User.t) (action : string)
    (resource : option Resource.t) : pyval :=
  PDict
    [ ("user",
       PDict [ ("id", PInt (User.id g_user));
               ("username", PStr (User.username g_user));
               ("tenant", PStr (User.tenant g_user));
               ("role", PStr (User.role g_user)) ]);
      ("action", PStr action);
      ("resource",
       match resource with
       | Some r =>
           if truthy (Resource.to_py r) then Resource.to_py r
           else PDict [("tenant", PStr (User.tenant g_user))]
       | None => PDict [("tenant", PStr (User.tenant g_user))]
       end) ].

(** [check_opa_permission(action, resource=None)]; the two [print] calls
    write to the console only. *)
Definition check_opa_permission (g_user : User.t) (action : string)
    (resource : option Resource.t) : M pyval :=
  try_except
    (let* response :=
       post OPA_URL (PDict [("input", input_data g_user action resource)]) 2 in
     if status_code response =? 200 then
       let* result := lift (response_json response) in
       lift (py_get result "result" (PBool false))
     else ret (PBool false))
    [ (RequestException, ret (PBool false)) ].

(** [v.encode()]: a method of strings only; it gives the UTF-8 bytes of
    the string and fails on a lone surrogate. *)
Definition py_encode (v : pyval) : pyresult string :=
  match v with
  | PStr s => Return s
  | PStrSurrogate _ => Raise UnicodeEncodeError
  | _ => Raise AttributeError
  end.

(** [POST /api/auth/login] *)
Definition login : M response :=
  let* data := ask request_json in
  let* username := lift (py_get data "username" PNone) in
  let* password := lift (py_get data "password" PNone) in
  let* user := users_get username in
  match user with
  | None => ret (jsonify (error "Invalid credentials") 401)
  | Some user =>
      let* encoded := lift (py_encode password) in
      let* password_hash := ask (fun e => sha256_hexdigest e encoded) in
      if negb (String.eqb (User.password user) password_hash)
      then ret (jsonify (error "Invalid credentials") 401)
      else
        let* token :=
          ask (fun e =>
                 jwt_encode e
                   (PDict [ ("username", PStr (User.username user));
                            ("tenant", PStr (User.tenant user));
                            ("role", PStr (User.role user));
                            ("exp", PInt (utcnow e + 24 * 3600)) ])
                   SECRET_KEY) in
        ret (jsonify
               (PDict [ ("token", PStr token);
                        ("user",
                         PDict [ ("username", PStr (User.username user));
                                 ("name", PStr (User.name user));
                                 ("tenant", PStr (User.tenant user));
                                 ("role", PStr (User.role user)) ]) ])
               200)
  end.

(** The views below are the bodies under [@require_auth]: the caller
    [g.user] comes first, then the arguments taken from the URL. *)

(** [GET /api/resources] *)
Definition list_resources (g_user : User.t) (_ : unit) : M response :=
  let* accessible :=
    if String.eqb (User.role g_user) "superadmin" then get resources
    else
      get (fun st =>
             List.filter
               (fun r => String.eqb (Resource.tenant r) (User.tenant g_user))
               (resources st)) in
  ret (jsonify (PDict [("resources", PList (map Resource.to_py accessible))]) 200).

(** [POST /api/resources] *)
Definition create_resource (g_user : User.t) (_ : unit) : M response :=
  let* allowed := check_opa_permission g_user "create" None in
  if negb (truthy allowed) then ret (jsonify (error "Forbidden") 403)
  else
    let* data := ask request_json in
    let* new_id := get next_resource_id in
    let* new_name := lift (py_get data "name" PNone) in
    let* new_type := lift (py_get data "type" (PStr "document")) in
    let new_resource := Resource.mk new_id (User.tenant g_user) new_name new_type in
    modify (fun st => set_resources (resources st ++ [new_resource]) st) ;;
    modify (fun st => set_next_resource_id (next_resource_id st + 1) st) ;;
    ret (jsonify (PDict [("resource", Resource.to_py new_resource)]) 201).

(** [next((r for r in resources if r['id'] == resource_id), None)]: the
    first resource with the id, with its position in the list, which
    stands for the identity of the dict. *)
Definition find_resource (resource_id : Z) : M (option (nat * Resource.t)) :=
  get (fun st => list_find (fun r => Resource.id r = resource_id) (resources st)).

(** [GET /api/resources/<int:resource_id>] *)
Definition get_resource (g_user : User.t) (resource_id : Z) : M response :=
  let* found := find_resource resource_id in
  match found with
  | None => ret (jsonify (error "Resource not found") 404)
  | Some (_, resource) =>
      let* allowed := check_opa_permission g_user "read" (Some resource) in
      if negb (truthy allowed) then ret (jsonify (error "Forbidden") 403)
      else ret (jsonify (PDict [("resource", Resource.to_py resource)]) 200)
  end.

(** An assignment [resource[k] = v] through the local name: the dict at
    position [i] of the store is the one that changes. *)
Definition assign (i : nat) (f : Resource.t -> Resource.t) (resource : Resource.t)
  : M Resource.t :=
  modify (fun st => set_resources (alter f i (resources st)) st) ;;
  ret (f resource).

(** [PUT /api/resources/<int:resource_id>] *)
Definition update_resource (g_user : User.t) (resource_id : Z) : M response :=
  let* found := find_resource resource_id in
  match found with
  | None => ret (jsonify (error "Resource not found") 404)
  | Some (i, resource) =>
      let* allowed := check_opa_permission g_user "update" (Some resource) in
      if negb (truthy allowed) then ret (jsonify (error "Forbidden") 403)
      else
        let* data := ask request_json in
        let* has_name := lift (py_contains "name" data) in
        let* resource :=
          if has_name : bool then
            let* v := lift (py_getitem data "name") in
            assign i (Resource.set_name v) resource
          else ret resource in
        let* has_type := lift (py_contains "type" data) in
        let* resource :=
          if has_type : bool then
            let* v := lift (py_getitem data "type") in
            assign i (Resource.set_type v) resource
          else ret resource in
        ret (jsonify (PDict [("resource", Resource.to_py resource)]) 200)
  end.

(** [DELETE /api/resources/<int:resource_id>] *)
Definition delete_resource (g_user : User.t) (resource_id : Z) : M response :=
  let* found := find_resource resource_id in
  match found with
  | None => ret (jsonify (error "Resource not found") 404)
  | Some (_, resource) =>
      let* allowed := check_opa_permission g_user "delete" (Some resource) in
      if negb (truthy allowed) then ret (jsonify (error "Forbidden") 403)
      else
        modify (fun st =>
                  set_resources
                    (List.filter (fun r => negb (Resource.id r =? resource_id))
                                 (resources st))
                    st) ;;
        ret (jsonify (PDict [("message", PStr "Resource deleted")]) 200)
  end.

(** [GET /api/tenants] *)
Definition list_tenants (g_user : User.t) (_ : unit) : M response :=
  if negb (String.eqb (User.role g_user) "superadmin")
  then ret (jsonify (error "Forbidden") 403)
  else
    ret (jsonify
           (PDict [("tenants", PList (map (fun kv => Tenant.to_py (snd kv)) tenants_items))])
           200).

(** [GET /api/tenants/<tenant_id>] *)
Definition get_tenant (g_user : User.t) (tenant_id : string) : M response :=
  match tenants !! tenant_id with
  | None => ret (jsonify (error "Tenant not found") 404)
  | Some tenant =>
      if negb (String.eqb (User.role g_user) "superadmin")
         && negb (String.eqb (User.tenant g_user) tenant_id)
      then ret (jsonify (error "Forbidden") 403)
      else ret (jsonify (PDict [("tenant", Tenant.to_py tenant)]) 200)
  end.

(** [GET /health] *)
Definition health : M response :=
  ret (jsonify (PDict [ ("status", PStr "healthy");
                        ("service", PStr "multi-tenant-api") ]) 200).

(** ** The URL map and the states the server can be in *)

Inductive route : Type :=
| Health
| Login
| ListResources
| CreateResource
| GetResource (resource_id : Z)
| UpdateResource (resource_id : Z)
| DeleteResource (resource_id : Z)
| ListTenants
| GetTenant (tenant_id : string).

Definition dispatch (r : route) : M response :=
  match r with
  | Health => health
  | Login => login
  | ListResources => require_auth list_resources tt
  | CreateResource => require_auth create_resource tt
  | GetResource resource_id => require_auth get_resource resource_id
  | UpdateResource resource_id => require_auth update_resource resource_id
  | DeleteResource resource_id => require_auth delete_resource resource_id
  | ListTenants => require_auth list_tenants tt
  | GetTenant tenant_id => require_auth get_tenant tenant_id
  end.

(** A state is reachable when a sequence of requests, each served in
    full (also one that ends in an exception), leads to it from the
    state the module starts in. *)
Inductive reachable : state -> Prop :=
| reachable_initial : reachable initial_state
| reachable_request (st st' : state) (e : environ) (r : route)
    (out : pyresult response) :
    reachable st -> dispatch r e st = (out, st') -> reachable st'.


(** ** Notions used in the statements *)

(** The bearer token the decorator reads from a header: the second field
    of the header split at spaces. *)
Definition token_of (auth_header : string) : string :=
  nth 1 (split " " auth_header) "".

(** Values that can be looked up in a dict keyed by strings. *)
Definition hashable (v : pyval) : bool :=
  match v with
  | PList _ | PDict _ => false
  | _ => true
  end.

(** The resource context of the query as the specification words it:
    the tenant, id and type of the resource, or the caller's tenant. *)
Definition resource_context_spec (g_user : User.t) (resource : option Resource.t)
  : pyval :=
  match resource with
  | Some r =>
      PDict [ ("tenant", PStr (Resource.tenant r));
              ("id", PInt (Resource.id r));
              ("type", Resource.type r) ]
  | None => PDict [("tenant", PStr (User.tenant g_user))]
  end.

(** The document posted for a permission check. *)
Definition opa_query (g_user : User.t) (action : string)
    (resource : option Resource.t) : pyval :=
  PDict [("input", input_data g_user action resource)].

(** What a permission check makes of the outcome of its POST. *)
Definition opa_decision (o : pyresult http_response) : pyresult pyval :=
  match o with
  | Raise x =>
      if issubclass x RequestException then Return (PBool false) else Raise x
  | Return resp =>
      if status_code resp =? 200 then
        match content resp with
        | NotJSON => Return (PBool false)
        | JSON v => py_get v "result" (PBool false)
        end
      else Return (PBool false)
  end.

(** Entry [k] of a value that is a dict. *)
Definition field (k : string) (v : pyval) : option pyval :=
  match v with
  | PDict kvs => dict_lookup k kvs
  | _ => None
  end.

(** Two stores that agree except, at most, for the name and the type of
    the resource at position [i]. *)
Definition same_but_name_type (i : nat) (rs rs' : list Resource.t) : Prop :=
  length rs' = length rs
  /\ forall j r,
      rs !! j = Some r ->
      exists r', rs' !! j = Some r'
                 /\ Resource.id r' = Resource.id r
                 /\ Resource.tenant r' = Resource.tenant r
                 /\ (j <> i -> r' = r).

(** The resource [r] after an update with the fields [kvs]. *)
Definition updated (kvs : list (string * pyval)) (r : Resource.t) : Resource.t :=
  Resource.mk (Resource.id r) (Resource.tenant r)
    (match dict_lookup "name" kvs with Some v => v | None => Resource.name r end)
    (match dict_lookup "type" kvs with Some v => v | None => Resource.type r end).

(** ** Sample worlds *)

Definition sample_digest (s : string) : string := String.append "sha256:" s.

Definition sample_claims (username tenant role : string) (exp : Z) : pyval :=
  PDict [ ("username", PStr username); ("tenant", PStr tenant);
          ("role", PStr role); ("exp", PInt exp) ].

(** A token library that knows five tokens: two good ones, an expired
    one, one with a bad signature and one for a user that is not in the
    directory. *)
Definition sample_segments (key token : string) : token_view :=
  if String.eqb token "bob.token" then
    Claims (sample_claims "bob" "acme" "user" 1700086400) true
  else if String.eqb token "root.token" then
    Claims (sample_claims "root" "system" "superadmin" 1700086400) true
  else if String.eqb token "bob.stale" then
    Claims (sample_claims "bob" "acme" "user" 1600000000) true
  else if String.eqb token "bob.forged" then
    Claims (sample_claims "bob" "acme" "admin" 1700086400) false
  else if String.eqb token "mallory.token" then
    Claims (sample_claims "mallory" "acme" "admin" 1700086400) true
  else Undecodable.

Definition world (authorization : option string) (json : pyval)
    (opa : pyresult http_response) : environ :=
  {| request_authorization := authorization;
     request_json := json;
     requests_post := fun _ _ _ => opa;
     utcnow := 1700000000;
     sha256_hexdigest := sample_digest;
     jwt_segments := sample_segments;
     jwt_encode := fun _ _ => "issued.token" |}.

Definition opa_answers (code : Z) (v : pyval) : pyresult http_response :=
  Return {| status_code := code; content := JSON v |}.

Definition opa_allows : pyresult http_response :=
  opa_answers 200 (PDict [("result", PBool true)]).

Definition opa_denies : pyresult http_response :=
  opa_answers 200 (PDict [("result", PBool false)]).

Definition bob : User.t :=
  User.mk 2 "bob" (sample_digest "bob123") "acme" "user" "Bob User".

Definition root : User.t :=
  User.mk 0 "root" (sample_digest "root123") "system" "superadmin" "Root Superadmin".

(** ** Further notions and sample worlds *)


(** A string without a space. *)
Fixpoint no_space (s : string) : bool :=
  match s with
  | EmptyString => true
  | String c s' => negb (Ascii.eqb c " ") && no_space s'
  end.

(** The claims [login] signs for a user at a given time. *)
Definition login_claims (user : User.t) (now : Z) : pyval :=
  PDict [ ("username", PStr (User.username user));
          ("tenant", PStr (User.tenant user));
          ("role", PStr (User.role user));
          ("exp", PInt (now + 24 * 3600)) ].

(** The statuses with which a view reports success. *)
Definition succeeded (out : pyresult response) : bool :=
  match out with
  | Return resp => (status resp =? 200) || (status resp =? 201)
  | Raise _ => false
  end.

(** A token library that reads every token as [view]. *)
Definition token_world (view : token_view) (authorization : option string)
    (json : pyval) (opa : pyresult http_response) : environ :=
  {| request_authorization := authorization;
     request_json := json;
     requests_post := fun _ _ _ => opa;
     utcnow := 1700000000;
     sha256_hexdigest := sample_digest;
     jwt_segments := fun _ _ => view;
     jwt_encode := fun _ _ => "issued.token" |}.


(** A token library that signs one token and reads it back, at a time
    of one's choice. *)
Definition session_world (now : Z) (authorization : option string) (json : pyval)
    (opa : pyresult http_response) : environ :=
  {| request_authorization := authorization;
     request_json := json;
     requests_post := fun _ _ _ => opa;
     utcnow := now;
     sha256_hexdigest := sample_digest;
     jwt_segments :=
       fun key token =>
         if String.eqb token "signed.by.login"
         then Claims (login_claims bob 1700000000) true
         else Undecodable;
     jwt_encode := fun _ _ => "signed.by.login" |}.

(** The request served in [e] from [st] to [st'] posted one query to
    the decision point and the check made of the answer a value that is
    true as a condition. *)
Definition allowed_by_opa (e : environ) (st st' : state) : Prop :=
  exists q allowed,
    opa_queries st' = (opa_queries st ++ [q])%list
    /\ opa_decision (requests_post e OPA_URL q 2) = Return allowed
    /\ truthy allowed = true.

(** The four things a request can do to the store and the id counter. *)
Inductive store_change (e : environ) (st st' : state) : Prop :=
| store_unchanged :
    resources st' = resources st ->
    next_resource_id st' = next_resource_id st ->
    store_change e st st'
| store_appended (r : Resource.t) (s : string) (g_user : User.t) :
    resources st' = (resources st ++ [r])%list ->
    next_resource_id st' = next_resource_id st + 1 ->
    Resource.id r = next_resource_id st ->
    users e !! s = Some g_user ->
    Resource.tenant r = User.tenant g_user ->
    allowed_by_opa e st st' ->
    store_change e st st'
| store_rewritten (i : nat) (f : Resource.t -> Resource.t) :
    (forall r, Resource.id (f r) = Resource.id r
               /\ Resource.tenant (f r) = Resource.tenant r) ->
    resources st' = alter f i (resources st) ->
    next_resource_id st' = next_resource_id st ->
    allowed_by_opa e st st' ->
    store_change e st st'
| store_removed (resource_id : Z) :
    resources st'
    = List.filter (fun r => negb (Resource.id r =? resource_id)) (resources st) ->
    next_resource_id st' = next_resource_id st ->
    allowed_by_opa e st st' ->
    store_change e st st'.

(** * Properties *)

(** ** Running computations *)

Ltac unfold_m :=
  unfold bind, ret, lift, ask, get, modify in *.

Lemma split_nonempty sep s : split sep s <> [].
Proof.
  destruct s as [|c s]; simpl; [discriminate|].
  destruct (Ascii.eqb c sep); [discriminate|].
  destruct (split sep s); discriminate.
Qed.

(** A header that starts with [Bearer ] has a second field. *)
Lemma bearer_second_field h :
  String.prefix "Bearer " h = true ->
  list_getitem (split " " h) 1 = Return (token_of h).
Proof.
  intros H.
  assert (exists rest,
            h = String "B" (String "e" (String "a" (String "r" (String "e"
                  (String "r" (String " " rest))))))) as [rest ->].
  { repeat (destruct h as [|? h]; simpl in H; [discriminate|];
            match type of H with
            | (if ?d then _ else _) = true => destruct d; [subst|discriminate]
            end).
    now exists h. }
  unfold token_of, list_getitem. simpl.
  destruct (split " " rest) eqn:E; [now apply split_nonempty in E|reflexivity].
Qed.

(** ** The permission check, run *)

Lemma check_opa_permission_run g_user action resource e st :
  check_opa_permission g_user action resource e st =
  (opa_decision (requests_post e OPA_URL (opa_query g_user action resource) 2),
   record_query (opa_query g_user action resource) st).
Proof.
  unfold check_opa_permission, try_except, post, opa_decision, opa_query.
  unfold_m.
  destruct (requests_post e OPA_URL _ 2) as [resp|x]; simpl.
  - destruct (status_code resp =? 200); [|reflexivity].
    unfold response_json.
    destruct (content resp) as [|v]; simpl; [reflexivity|].
    destruct (py_get v "result" (PBool false)) as [d|x] eqn:E; [reflexivity|].
    destruct v; simpl in E; try discriminate; injection E as <-; reflexivity.
  - destruct (issubclass x RequestException); reflexivity.
Qed.

(** The cases in which the check denies whatever the policy says: the
    POST fails with an error of [requests], the status is not 200, the
    body is no JSON, or it is an object without a [result]. *)
Lemma opa_decision_fail_closed o :
  (exists x, o = Raise x /\ issubclass x RequestException = true)
  \/ (exists resp, o = Return resp /\
       (status_code resp <> 200
        \/ content resp = NotJSON
        \/ exists kvs, content resp = JSON (PDict kvs) /\
                       dict_lookup "result" kvs = None)) ->
  opa_decision o = Return (PBool false).
Proof.
  intros [(x & -> & Hx)|(resp & -> & H)]; simpl.
  - now rewrite Hx.
  - destruct (Z.eqb_spec (status_code resp) 200) as [Heq|Hne]; [|reflexivity].
    destruct H as [H|[H|(kvs & H & Hk)]]; [contradiction| |]; rewrite H; simpl;
      [reflexivity|now rewrite Hk].
Qed.

(** ** The decorator, by cases *)

Ltac auth_rejected := left; eexists; split; [|reflexivity]; reflexivity.
Ltac auth_crashed := right; left; eexists; reflexivity.
Ltac auth_passed := right; right; eexists; reflexivity.

Lemma require_auth_cases {Args} (f : User.t -> Args -> M response) args e st :
  (exists resp, status resp = 401 /\
                require_auth f args e st = (Return resp, st))
  \/ (exists x, require_auth f args e st = (Raise x, st))
  \/ (exists g_user, require_auth f args e st = f g_user args e st).
Proof.
  unfold require_auth, try_except, jwt_decode, users_get. unfold_m.
  destruct (request_authorization e) as [h|]; [|auth_rejected].
  destruct (negb (truthy (PStr h)) || negb (String.prefix "Bearer " h));
    [auth_rejected|].
  destruct (list_getitem (split " " h) 1) as [token|x]; [|auth_crashed].
  destruct (jwt_segments e SECRET_KEY token) as [|payload [|]]; simpl;
    [auth_rejected| |auth_rejected].
  destruct payload as [| | | | |claims|]; simpl; try auth_rejected.
  destruct (dict_lookup "exp" claims) as [[| |exp| | | |]|]; simpl;
    try auth_rejected;
    try (destruct (exp <=? utcnow e); simpl; [auth_rejected|]);
    (destruct (dict_lookup "username" claims) as [[| | |s| | |]|]; simpl;
     try destruct (users e !! s); simpl;
     first [auth_rejected | auth_crashed | auth_passed]).
Qed.

(** ** Stored ids stay below the counter *)


Lemma check_opa_permission_resources g_user action resource e st :
  resources (snd (check_opa_permission g_user action resource e st)) = resources st
  /\ next_resource_id (snd (check_opa_permission g_user action resource e st))
     = next_resource_id st.
Proof. rewrite check_opa_permission_run. split; reflexivity. Qed.

Lemma list_resources_state g_user args e st :
  snd (list_resources g_user args e st) = st.
Proof.
  unfold list_resources. unfold_m.
  destruct (String.eqb (User.role g_user) "superadmin"); reflexivity.
Qed.






Lemma list_tenants_state g_user args e st : snd (list_tenants g_user args e st) = st.
Proof.
  unfold list_tenants. unfold_m.
  destruct (negb (String.eqb (User.role g_user) "superadmin")); reflexivity.
Qed.

Lemma get_tenant_state g_user tenant_id e st :
  snd (get_tenant g_user tenant_id e st) = st.
Proof.
  unfold get_tenant. unfold_m.
  destruct (tenants !! tenant_id); [|reflexivity].
  destruct (_ && _); reflexivity.
Qed.

Lemma login_state e st : snd (login e st) = st.
Proof.
  unfold login, users_get. unfold_m.
  repeat (case_match; simpl; simplify_eq; try reflexivity).
Qed.

Lemma require_auth_preserves {Args} (P : state -> Prop)
    (f : User.t -> Args -> M response) args e st :
  (forall g_user, P st -> P (snd (f g_user args e st))) ->
  P st -> P (snd (require_auth f args e st)).
Proof.
  intros Hf H.
  destruct (require_auth_cases f args e st)
    as [(resp & _ & ->)|[(x & ->)|(g_user & ->)]]; auto.
Qed.



(** ** The policy decision client *)

(** Fail-closed, as far as the code goes: an error of [requests] (no
    connection, timeout), a status other than 200, a body that is no
    JSON and a JSON object without [result] all give [False]. *)
Lemma check_opa_permission_fail_closed g_user action resource e st :
  let o := requests_post e OPA_URL (opa_query g_user action resource) 2 in
  (exists x, o = Raise x /\ issubclass x RequestException = true)
  \/ (exists resp, o = Return resp /\
       (status_code resp <> 200
        \/ content resp = NotJSON
        \/ exists kvs, content resp = JSON (PDict kvs) /\
                       dict_lookup "result" kvs = None)) ->
  check_opa_permission g_user action resource e st =
  (Return (PBool false), record_query (opa_query g_user action resource) st).
Proof.
  intros o H. rewrite check_opa_permission_run.
  fold o. now rewrite (opa_decision_fail_closed o H).
Qed.

(** C1, at the inputs where it fails.  When the decision point answers
    200 with a JSON document that is not an object, here the empty array,
    [check_opa_permission] raises [AttributeError] instead of returning
    [False]; when it answers 200 with an object whose [result] is not a
    boolean, here the string "no", the check returns that string, which
    is true as a condition, so that [create_resource] stores the
    resource and answers 201. *)
Theorem check_opa_permission_unexpected_shape :
  forall g_user action resource authorization json st,
    fst (check_opa_permission g_user action resource
           (world authorization json (opa_answers 200 (PList []))) st)
    = Raise AttributeError
    /\ fst (check_opa_permission g_user action resource
              (world authorization json
                 (opa_answers 200 (PDict [("result", PStr "no")]))) st)
       = Return (PStr "no")
    /\ truthy (PStr "no") = true
    /\ fst (create_resource bob tt
              (world None (PDict [("name", PStr "memo")])
                 (opa_answers 200 (PDict [("result", PStr "no")])))
              initial_state)
       = Return (jsonify
                   (PDict [("resource",
                            Resource.to_py
                              (Resource.mk 5 "acme" (PStr "memo") (PStr "document")))])
                   201).
Proof.
  intros. rewrite !check_opa_permission_run. repeat split.
Qed.

(** ** Listing *)

Lemma filter_tenant_eqb t (rs : list Resource.t) :
  List.filter (fun r => String.eqb (Resource.tenant r) t) rs
  = filter (fun r => Resource.tenant r = t) rs.
Proof.
  induction rs as [|r rs IH]; [reflexivity|].
  simpl. rewrite filter_cons.
  destruct (String.eqb_spec (Resource.tenant r) t) as [Heq|Hne];
    destruct (decide (Resource.tenant r = t)); try contradiction;
    now rewrite IH.
Qed.

Lemma to_py_tenant r r' :
  Resource.to_py r = Resource.to_py r' -> Resource.tenant r = Resource.tenant r'.
Proof. unfold Resource.to_py. intros H. now injection H. Qed.

(** C2.  [list_resources] answers 200 with the whole store for a
    superadmin and otherwise with exactly the stored resources of the
    caller's tenant, in store order; the state, and with it the record of
    queries to the decision point, is left as it was, whatever the
    environment.  So a stored resource of another tenant is never in the
    answer to a caller who is no superadmin. *)
Theorem list_resources_tenant_scoped :
  forall g_user e st,
  exists accessible : list Resource.t,
    list_resources g_user tt e st
    = (Return (jsonify (PDict [("resources", PList (map Resource.to_py accessible))]) 200),
       st)
    /\ (User.role g_user = "superadmin" -> accessible = resources st)
    /\ (User.role g_user <> "superadmin" ->
        accessible = filter (fun r => Resource.tenant r = User.tenant g_user) (resources st))
    /\ (User.role g_user <> "superadmin" ->
        forall R, R ∈ resources st ->
                  Resource.tenant R <> User.tenant g_user ->
                  (R ∉ accessible) /\
                  (Resource.to_py R ∉ map Resource.to_py accessible)).
Proof.
  intros g_user e st. unfold list_resources. unfold_m.
  destruct (String.eqb_spec (User.role g_user) "superadmin") as [Hrole|Hrole].
  - exists (resources st). repeat split; try reflexivity; contradiction.
  - exists (filter (fun r => Resource.tenant r = User.tenant g_user) (resources st)).
    rewrite filter_tenant_eqb.
    repeat split; try reflexivity; try contradiction.
    + intros Hin. apply list_elem_of_filter in Hin as [Ht _]. contradiction.
    + intros Hin. apply list_elem_of_fmap in Hin as (r' & Heq & Hin').
      apply list_elem_of_filter in Hin' as [Ht _].
      apply to_py_tenant in Heq. congruence.
Qed.

(** ** Creation *)


(** C3, at the input where it fails.  When the decision point answers
    200 with the object whose [result] is the string "no", the
    permission check for "create" returns that string, which is not
    [True]; [create_resource] still answers 201 and appends a resource
    to the store, for every caller, state and body that is an object. *)
Theorem create_resource_non_boolean_decision :
  forall g_user authorization kvs st,
    fst (check_opa_permission g_user "create" None
           (world authorization (PDict kvs)
              (opa_answers 200 (PDict [("result", PStr "no")]))) st)
    = Return (PStr "no")
    /\ PStr "no" <> PBool true
    /\ exists resp st' r,
        create_resource g_user tt
          (world authorization (PDict kvs)
             (opa_answers 200 (PDict [("result", PStr "no")]))) st
        = (Return resp, st')
        /\ status resp = 201
        /\ body resp = PDict [("resource", Resource.to_py r)]
        /\ resources st' = (resources st ++ [r])%list.
Proof.
  intros g_user authorization kvs st.
  split; [now rewrite check_opa_permission_run|].
  split; [discriminate|].
  unfold create_resource. unfold bind at 1.
  rewrite check_opa_permission_run. simpl. unfold_m. simpl.
  do 3 eexists. split; [reflexivity|]. repeat split.
Qed.

(** ** Looking a resource up by id *)

Lemma find_resource_Some resource_id (rs : list Resource.t) :
  (exists r, r ∈ rs /\ Resource.id r = resource_id) ->
  exists i r0,
    list_find (fun r => Resource.id r = resource_id) rs = Some (i, r0)
    /\ rs !! i = Some r0 /\ Resource.id r0 = resource_id.
Proof.
  intros (r & Hin & Hid).
  destruct (list_find_elem_of (fun r => Resource.id r = resource_id) rs r Hin Hid)
    as [[i r0] Hfind].
  exists i, r0. split; [exact Hfind|].
  apply list_find_Some in Hfind as (Hi & Hr0 & _). now split.
Qed.

Lemma find_resource_None resource_id (rs : list Resource.t) :
  (forall r, r ∈ rs -> Resource.id r <> resource_id) ->
  list_find (fun r => Resource.id r = resource_id) rs = None.
Proof.
  intros H. apply list_find_None. apply Forall_forall. exact H.
Qed.

(** ** Deletion *)

(** C4, as stated, fails: bob, a plain user of tenant acme, asks to
    delete resource 3 of tenant globex while the decision point denies;
    the answer is 403, not 404. *)
Lemma delete_foreign_resource_is_forbidden :
  let e := world (Some "Bearer bob.token") PNone opa_denies in
  User.role bob <> "superadmin"
  /\ (exists r, r ∈ resources initial_state /\ Resource.id r = 3
                /\ Resource.tenant r <> User.tenant bob)
  /\ fst (delete_resource bob 3 e initial_state)
      = Return (jsonify (error "Forbidden") 403)
  /\ fst (dispatch (DeleteResource 3) e initial_state)
      = Return (jsonify (error "Forbidden") 403)
  /\ status (jsonify (error "Forbidden") 403) <> 404.
Proof.
  simpl. split; [discriminate|]. split.
  - exists (Resource.mk 3 "globex" (PStr "Globex Financials") (PStr "spreadsheet")).
    split; [|split; [reflexivity|discriminate]].
    apply list_elem_of_In. simpl. tauto.
  - split; [reflexivity|]. split; [vm_compute; reflexivity|discriminate].
Qed.

(** C4, amended.  A delete request for an id that is in the store never
    answers 404, whatever the tenants and roles involved: the lookup is
    through the whole store.  With [r0] the first resource of that id,
    when the permission check for "delete" on [r0] returns a value, the
    answer is 403 with the store as it was if the value is false as a
    condition, and 200 with every resource of that id removed if it is
    true. *)
Theorem delete_resource_existing_id :
  forall g_user resource_id e st,
    (exists r, r ∈ resources st /\ Resource.id r = resource_id) ->
    (forall resp st',
        delete_resource g_user resource_id e st = (Return resp, st') ->
        status resp <> 404)
    /\ exists r0,
        r0 ∈ resources st /\ Resource.id r0 = resource_id
        /\ forall allowed st1,
            check_opa_permission g_user "delete" (Some r0) e st = (Return allowed, st1) ->
            delete_resource g_user resource_id e st
            = if truthy allowed
              then (Return (jsonify (PDict [("message", PStr "Resource deleted")]) 200),
                    set_resources
                      (List.filter (fun r => negb (Resource.id r =? resource_id))
                                   (resources st1))
                      st1)
              else (Return (jsonify (error "Forbidden") 403), st1).
Proof.
  intros g_user resource_id e st Hex.
  destruct (find_resource_Some resource_id (resources st) Hex)
    as (i & r0 & Hfind & Hi & Hid).
  unfold delete_resource, find_resource. unfold_m. rewrite Hfind. split.
  - intros resp st'.
    destruct (check_opa_permission g_user "delete" (Some r0) e st) as [[allowed|x] st1];
      [|discriminate].
    destruct (truthy allowed); simpl; intros H; injection H as <- _; discriminate.
  - exists r0. split; [now apply list_elem_of_lookup_2 in Hi|]. split; [exact Hid|].
    intros allowed st1 ->.
    destruct (truthy allowed); reflexivity.
Qed.

(** ** The query *)

(** C5, as stated, fails: for a supplied resource the resource context
    of the query is the whole dict of the resource, so it also carries
    its name; it is not the object of tenant, id and type alone. *)
Lemma opa_query_carries_name :
  let r := Resource.mk 1 "acme" (PStr "Acme Q1 Report") (PStr "document") in
  let e := world (Some "Bearer bob.token") PNone opa_allows in
  r ∈ resources initial_state
  /\ opa_queries (snd (get_resource bob 1 e initial_state))
     = [PDict [("input", input_data bob "read" (Some r))]]
  /\ field "resource" (input_data bob "read" (Some r))
     <> Some (resource_context_spec bob (Some r))
  /\ (exists context,
         field "resource" (input_data bob "read" (Some r)) = Some context
         /\ field "name" context = Some (PStr "Acme Q1 Report")).
Proof.
  simpl. split; [apply list_elem_of_In; simpl; tauto|].
  split; [reflexivity|]. split; [discriminate|].
  eexists. split; reflexivity.
Qed.

(** C5, amended.  Every permission check posts one document,
    [{"input": {"user": ..., "action": ..., "resource": ...}}]: the user
    part holds the caller's id, username, tenant and role, the action is
    the action name, and the resource context is the supplied resource
    as a whole (id, tenant, name and type) or, when none is supplied,
    the object holding the caller's tenant. *)
Theorem check_opa_permission_query :
  forall g_user action resource e st,
    opa_queries (snd (check_opa_permission g_user action resource e st))
    = (opa_queries st ++
       [PDict
          [("input",
            PDict
              [ ("user",
                 PDict [ ("id", PInt (User.id g_user));
                         ("username", PStr (User.username g_user));
                         ("tenant", PStr (User.tenant g_user));
                         ("role", PStr (User.role g_user)) ]);
                ("action", PStr action);
                ("resource",
                 match resource with
                 | Some r =>
                     PDict [ ("id", PInt (Resource.id r));
                             ("tenant", PStr (Resource.tenant r));
                             ("name", Resource.name r);
                             ("type", Resource.type r) ]
                 | None => PDict [("tenant", PStr (User.tenant g_user))]
                 end) ])]])%list.
Proof.
  intros. rewrite check_opa_permission_run. simpl.
  destruct resource; reflexivity.
Qed.

(** ** Authentication *)

(** A verified token: good signature, claims that form an object, and
    an expiry, if any, that is an integer still ahead. *)
Lemma jwt_decode_Return token key e st payload st' :
  jwt_decode token key e st = (Return payload, st') <->
  st' = st
  /\ exists claims,
      payload = PDict claims
      /\ jwt_segments e key token = Claims (PDict claims) true
      /\ (dict_lookup "exp" claims = None
          \/ exists exp, dict_lookup "exp" claims = Some (PInt exp) /\ utcnow e < exp).
Proof.
  unfold jwt_decode. split.
  - destruct (jwt_segments e key token) as [|p [|]]; simpl; try discriminate.
    destruct p as [| | | | |claims|]; try discriminate.
    destruct (dict_lookup "exp" claims) as [[| |exp| | | |]|] eqn:Hexp;
      try discriminate.
    + destruct (Z.leb_spec exp (utcnow e)) as [|Hlt]; [discriminate|].
      intros Hrun. injection Hrun as <- <-. split; [reflexivity|].
      exists claims. repeat split. right. now exists exp.
    + intros Hrun. injection Hrun as <- <-. split; [reflexivity|].
      exists claims. repeat split. now left.
  - intros (-> & claims & -> & -> & Hexp). simpl.
    destruct Hexp as [->|(exp & -> & Hlt)]; [reflexivity|].
    destruct (Z.leb_spec exp (utcnow e)); [lia|reflexivity].
Qed.

Lemma bearer_header_accepted h :
  String.prefix "Bearer " h = true ->
  negb (truthy (PStr h)) || negb (String.prefix "Bearer " h) = false.
Proof.
  intros H. rewrite H. destruct h; [discriminate|reflexivity].
Qed.

Ltac enter_bearer Hheader Hprefix :=
  unfold require_auth, try_except, jwt_decode; unfold_m;
  rewrite Hheader, (bearer_header_accepted _ Hprefix),
    (bearer_second_field _ Hprefix).

(** X21.  A request without an [Authorization] header, or with one
    that does not start with [Bearer ], is answered 401 "No token
    provided".  For a bearer token: if its signature is good and its
    expiry claim is an integer that lies in the past, the answer is 401
    "Token expired"; if its signature is bad, or it cannot be decoded,
    the answer is 401 "Invalid token".  In each case the state is
    untouched and the wrapped view plays no part. *)
Theorem require_auth_token_failures :
  forall (Args : Type) (f : User.t -> Args -> M response) (args : Args) e st,
    ((request_authorization e = None
      \/ exists h, request_authorization e = Some h
                   /\ String.prefix "Bearer " h = false) ->
     require_auth f args e st
     = (Return (jsonify (error "No token provided") 401), st))
    /\ (forall h,
          request_authorization e = Some h ->
          String.prefix "Bearer " h = true ->
          (forall claims exp,
              jwt_segments e SECRET_KEY (token_of h) = Claims (PDict claims) true ->
              dict_lookup "exp" claims = Some (PInt exp) ->
              exp < utcnow e ->
              require_auth f args e st
              = (Return (jsonify (error "Token expired") 401), st))
          /\ (forall payload,
                 jwt_segments e SECRET_KEY (token_of h) = Claims payload false ->
                 require_auth f args e st
                 = (Return (jsonify (error "Invalid token") 401), st))
          /\ (jwt_segments e SECRET_KEY (token_of h) = Undecodable ->
              require_auth f args e st
              = (Return (jsonify (error "Invalid token") 401), st))).
Proof.
  intros Args f args e st. split.
  - intros [Hnone|(h & Hsome & Hprefix)]; unfold require_auth; unfold_m.
    + now rewrite Hnone.
    + rewrite Hsome, Hprefix. now rewrite orb_true_r.
  - intros h Hheader Hprefix. repeat split.
    + intros claims exp Hseg Hexp Hpast.
      enter_bearer Hheader Hprefix. rewrite Hseg. simpl. rewrite Hexp.
      destruct (Z.leb_spec exp (utcnow e)); [reflexivity|lia].
    + intros payload Hseg.
      enter_bearer Hheader Hprefix. now rewrite Hseg.
    + intros Hseg.
      enter_bearer Hheader Hprefix. now rewrite Hseg.
Qed.

(** C6, at the input where it fails.  Let the bearer token of a request
    verify (good signature, not expired) while its claims hold no
    username.  Reading the claim raises [KeyError], which neither
    [except] clause handles: whatever the wrapped view, the request
    ends in that exception instead of the answer 401 "Invalid
    token". *)
Theorem require_auth_username_missing :
  forall (Args : Type) (f : User.t -> Args -> M response) (args : Args) e st
         h claims,
    request_authorization e = Some h ->
    String.prefix "Bearer " h = true ->
    jwt_decode (token_of h) SECRET_KEY e st = (Return (PDict claims), st) ->
    dict_lookup "username" claims = None ->
    require_auth f args e st = (Raise KeyError, st)
    /\ issubclass KeyError ExpiredSignatureError = false
    /\ issubclass KeyError InvalidTokenError = false.
Proof.
  intros Args f args e st h claims Hheader Hprefix Hdecode Hname.
  split; [|split; reflexivity].
  unfold require_auth, try_except. unfold_m.
  rewrite Hheader, (bearer_header_accepted _ Hprefix),
    (bearer_second_field _ Hprefix), Hdecode.
  simpl. now rewrite Hname.
Qed.

(** X22.  Let the bearer token of a request verify, with a username
    claim that can be hashed (a string, a number, a boolean or null).  If the claim names no
    user record, the answer is 401 "User not found", the state is
    untouched, and this holds for every wrapped view, which is therefore
    not run.  The lookup is a check of its own: the same verified token
    with the name of a recorded user hands that record to the view. *)
Theorem require_auth_principal_not_found :
  forall (Args : Type) (f : User.t -> Args -> M response) (args : Args) e st
         h payload username,
    request_authorization e = Some h ->
    String.prefix "Bearer " h = true ->
    jwt_decode (token_of h) SECRET_KEY e st = (Return payload, st) ->
    py_getitem payload "username" = Return username ->
    hashable username = true ->
    ((forall s, username = PStr s -> users e !! s = None) ->
     require_auth f args e st
     = (Return (jsonify (error "User not found") 401), st))
    /\ (forall s g_user,
           username = PStr s -> users e !! s = Some g_user ->
           require_auth f args e st = f g_user args e st).
Proof.
  intros Args f args e st h payload username Hheader Hprefix Hdecode Hname Hhash.
  unfold require_auth, try_except. unfold_m.
  rewrite Hheader, (bearer_header_accepted _ Hprefix),
    (bearer_second_field _ Hprefix), Hdecode, Hname.
  unfold users_get. split.
  - intros Hnone.
    destruct username as [| | |s| | |]; try discriminate; try reflexivity.
    now rewrite (Hnone s eq_refl).
  - intros s g_user -> Hsome. now rewrite Hsome.
Qed.

(** C7, at the input where it fails.  Let the bearer token of a request
    verify while its username claim is a list or an object, a value
    that matches no user record.  The lookup in the directory raises
    [TypeError], which neither [except] clause handles: whatever the
    wrapped view, which is not run, the request ends in that exception
    instead of the answer 401 "User not found". *)
Theorem require_auth_unhashable_username :
  forall (Args : Type) (f : User.t -> Args -> M response) (args : Args) e st
         h claims username,
    request_authorization e = Some h ->
    String.prefix "Bearer " h = true ->
    jwt_decode (token_of h) SECRET_KEY e st = (Return (PDict claims), st) ->
    dict_lookup "username" claims = Some username ->
    hashable username = false ->
    require_auth f args e st = (Raise TypeError, st)
    /\ issubclass TypeError ExpiredSignatureError = false
    /\ issubclass TypeError InvalidTokenError = false.
Proof.
  intros Args f args e st h claims username Hheader Hprefix Hdecode Hname Hhash.
  split; [|split; reflexivity].
  unfold require_auth, try_except, users_get. unfold_m.
  rewrite Hheader, (bearer_header_accepted _ Hprefix),
    (bearer_second_field _ Hprefix), Hdecode.
  simpl. rewrite Hname.
  destruct username; try discriminate; reflexivity.
Qed.

(** ** Update *)

Lemma same_but_name_type_refl i rs : same_but_name_type i rs rs.
Proof. split; [reflexivity|]. intros j r Hj. exists r. now repeat split. Qed.

Lemma same_but_name_type_alter f (i : nat) (rs rs' : list Resource.t) :
  (forall r, Resource.id (f r) = Resource.id r
             /\ Resource.tenant (f r) = Resource.tenant r) ->
  same_but_name_type i rs rs' ->
  same_but_name_type i rs (alter f i rs').
Proof.
  intros Hf [Hlen H]. split; [now rewrite length_alter|].
  intros j r Hj. destruct (H j r Hj) as (r' & Hj' & Hid & Ht & Hother).
  destruct (decide (i = j)) as [->|Hne].
  - exists (f r'). rewrite list_lookup_alter_eq, Hj'. simpl.
    destruct (Hf r') as [-> ->]. repeat split; try assumption. contradiction.
  - exists r'. rewrite list_lookup_alter_ne by exact Hne.
    repeat split; assumption.
Qed.

Lemma alter_as_insert (f : Resource.t -> Resource.t) (i : nat)
    (rs : list Resource.t) r :
  rs !! i = Some r -> alter f i rs = <[i := f r]> rs.
Proof.
  revert i. induction rs as [|r' rs IH]; intros [|i] H; simpl in *;
    try discriminate.
  - now injection H as ->.
  - f_equal. now apply IH.
Qed.

Lemma update_resource_store g_user resource_id e st i r0 :
  list_find (fun r => Resource.id r = resource_id) (resources st) = Some (i, r0) ->
  exists f : Resource.t -> Resource.t,
    (forall r, Resource.id (f r) = Resource.id r
               /\ Resource.tenant (f r) = Resource.tenant r)
    /\ resources (snd (update_resource g_user resource_id e st))
       = alter f i (resources st)
    /\ next_resource_id (snd (update_resource g_user resource_id e st))
       = next_resource_id st.
Proof.
  intros Hfind.
  assert (Hkeep : exists f : Resource.t -> Resource.t,
             (forall r, Resource.id (f r) = Resource.id r
                        /\ Resource.tenant (f r) = Resource.tenant r)
             /\ resources st = alter f i (resources st)
             /\ next_resource_id st = next_resource_id st).
  { exists (fun r => r). repeat split. symmetry. now apply list_alter_id. }
  unfold update_resource, find_resource, assign. unfold_m. rewrite Hfind.
  rewrite check_opa_permission_run.
  destruct (opa_decision _) as [allowed|x]; [|exact Hkeep].
  destruct (truthy allowed); simpl; [|exact Hkeep].
  destruct (py_contains "name" (request_json e)) as [[|]|]; simpl; [| |exact Hkeep].
  - destruct (py_getitem (request_json e) "name") as [v|]; simpl; [|exact Hkeep].
    destruct (py_contains "type" (request_json e)) as [[|]|]; simpl.
    + destruct (py_getitem (request_json e) "type") as [w|]; simpl.
      * exists (fun r => Resource.set_type w (Resource.set_name v r)).
        repeat split. apply list_alter_alter_eq.
      * exists (Resource.set_name v). now repeat split.
    + exists (Resource.set_name v). now repeat split.
    + exists (Resource.set_name v). now repeat split.
  - destruct (py_contains "type" (request_json e)) as [[|]|]; simpl;
      [| exact Hkeep | exact Hkeep].
    destruct (py_getitem (request_json e) "type") as [w|]; simpl; [|exact Hkeep].
    exists (Resource.set_type w). now repeat split.
Qed.

(** X20.  [update_resource] answers 404 and changes nothing when no
    stored resource has the id.  When one has, with [r0] the first such
    resource, at position [i]: whatever the outcome of the call, the
    store keeps its length, every resource at another position is
    exactly as before, the resource at [i] keeps its id and its tenant,
    and the id counter is unchanged; when the permission check for
    "update" on [r0] returns a value that is false as a condition the
    answer is 403; and when it returns one that is true and the body is
    an object, the answer is 200 and the resource at [i] takes the name
    and the type given in the body, keeping those that are not given. *)
Theorem update_resource_frame :
  forall g_user resource_id e st,
    ((forall r, r ∈ resources st -> Resource.id r <> resource_id) ->
     update_resource g_user resource_id e st
     = (Return (jsonify (error "Resource not found") 404), st))
    /\ ((exists r, r ∈ resources st /\ Resource.id r = resource_id) ->
        exists (i : nat) (r0 : Resource.t),
          resources st !! i = Some r0
          /\ Resource.id r0 = resource_id
          /\ same_but_name_type i (resources st)
               (resources (snd (update_resource g_user resource_id e st)))
          /\ next_resource_id (snd (update_resource g_user resource_id e st))
             = next_resource_id st
          /\ forall allowed st1,
              check_opa_permission g_user "update" (Some r0) e st
              = (Return allowed, st1) ->
              resources st1 = resources st
              /\ (truthy allowed = false ->
                  update_resource g_user resource_id e st
                  = (Return (jsonify (error "Forbidden") 403), st1))
              /\ (truthy allowed = true ->
                  forall kvs,
                    request_json e = PDict kvs ->
                    update_resource g_user resource_id e st
                    = (Return
                         (jsonify (PDict [("resource", Resource.to_py (updated kvs r0))])
                                  200),
                       set_resources (<[i := updated kvs r0]> (resources st1)) st1))).
Proof.
  intros g_user resource_id e st. split.
  - intros Hnone. unfold update_resource, find_resource. unfold_m.
    now rewrite (find_resource_None _ _ Hnone).
  - intros Hex.
    destruct (find_resource_Some resource_id (resources st) Hex)
      as (i & r0 & Hfind & Hi & Hid).
    exists i, r0. split; [exact Hi|]. split; [exact Hid|].
    destruct (update_resource_store g_user resource_id e st i r0 Hfind)
      as (f & Hf & -> & ->).
    split; [apply same_but_name_type_alter;
            [exact Hf|apply same_but_name_type_refl]|].
    split; [reflexivity|].
    intros allowed st1 Hcheck.
    pose proof (check_opa_permission_resources g_user "update" (Some r0) e st)
      as [Hres _].
    rewrite Hcheck in Hres. simpl in Hres. split; [exact Hres|].
    unfold update_resource, find_resource, assign. unfold_m.
    rewrite Hfind, Hcheck. split.
    + intros ->. reflexivity.
    + intros Hallowed kvs Hjson. rewrite Hallowed. simpl. rewrite Hjson. simpl.
      rewrite <- Hres in Hi. unfold updated.
      destruct (dict_lookup "name" kvs) as [v|];
        destruct (dict_lookup "type" kvs) as [w|]; simpl.
      * rewrite list_alter_alter_eq.
        now rewrite (alter_as_insert _ i (resources st1) r0 Hi).
      * now rewrite (alter_as_insert _ i (resources st1) r0 Hi).
      * now rewrite (alter_as_insert _ i (resources st1) r0 Hi).
      * destruct r0 as [id0 tenant0 name0 type0]. simpl.
        rewrite list_insert_id by exact Hi. now destruct st1.
Qed.

(** C8, at the input where it fails.  When the decision point answers
    200 with the object whose [result] is the string "no", the
    permission check for "update" on a stored resource returns that
    string, which is not [True]; [update_resource] then answers 200,
    not 403, for every caller and body that is an object. *)
Theorem update_resource_non_boolean_decision :
  forall g_user resource_id authorization kvs st,
    (exists r, r ∈ resources st /\ Resource.id r = resource_id) ->
    exists r0 resp st',
      r0 ∈ resources st /\ Resource.id r0 = resource_id
      /\ fst (check_opa_permission g_user "update" (Some r0)
                (world authorization (PDict kvs)
                   (opa_answers 200 (PDict [("result", PStr "no")]))) st)
         = Return (PStr "no")
      /\ PStr "no" <> PBool true
      /\ update_resource g_user resource_id
           (world authorization (PDict kvs)
              (opa_answers 200 (PDict [("result", PStr "no")]))) st
         = (Return resp, st')
      /\ status resp = 200.
Proof.
  intros g_user resource_id authorization kvs st Hex.
  destruct (find_resource_Some resource_id (resources st) Hex)
    as (i & r0 & Hfind & Hi & Hid).
  exists r0.
  unfold update_resource, find_resource, assign. unfold_m.
  rewrite Hfind, !check_opa_permission_run. simpl.
  destruct (dict_lookup "name" kvs); destruct (dict_lookup "type" kvs); simpl;
    do 2 eexists;
    (split; [now apply list_elem_of_lookup_2 in Hi|]);
    (split; [exact Hid|]);
    (split; [reflexivity|]);
    (split; [discriminate|]);
    (split; reflexivity).
Qed.

(** ** Tenants *)

Lemma tenants_keys tenant_id :
  is_Some (tenants !! tenant_id) <->
  tenant_id = "acme" \/ tenant_id = "globex" \/ tenant_id = "system".
Proof.
  unfold tenants, tenants_items. simpl. split.
  - intros [t H].
    destruct (decide (tenant_id = "acme")) as [|H1]; [tauto|].
    destruct (decide (tenant_id = "globex")) as [|H2]; [tauto|].
    destruct (decide (tenant_id = "system")) as [|H3]; [tauto|].
    rewrite !lookup_insert_ne, lookup_empty in H by congruence. discriminate.
  - intros [-> | [-> | ->]]; eexists; reflexivity.
Qed.

(** C9.  [get_tenant] always answers, without touching the state: 404
    exactly when the directory has no tenant of that id, 403 exactly
    when it has one and the caller is neither superadmin nor of that
    tenant, and 200 otherwise.  The existence test comes first, so for
    any caller an id that is absent and an id that is present are told
    apart by the status. *)
Theorem get_tenant_status :
  forall g_user e st,
    (forall tenant_id,
        exists resp,
          get_tenant g_user tenant_id e st = (Return resp, st)
          /\ (status resp = 404 <-> tenants !! tenant_id = None)
          /\ (status resp = 403 <->
              is_Some (tenants !! tenant_id)
              /\ User.role g_user <> "superadmin"
              /\ User.tenant g_user <> tenant_id)
          /\ (status resp = 404 \/ status resp = 403 \/ status resp = 200))
    /\ (forall absent present,
           tenants !! absent = None ->
           is_Some (tenants !! present) ->
           exists resp_absent resp_present,
             get_tenant g_user absent e st = (Return resp_absent, st)
             /\ get_tenant g_user present e st = (Return resp_present, st)
             /\ status resp_absent = 404
             /\ status resp_present <> 404).
Proof.
  intros g_user e st.
  assert (Hone : forall tenant_id,
            exists resp,
              get_tenant g_user tenant_id e st = (Return resp, st)
              /\ (status resp = 404 <-> tenants !! tenant_id = None)
              /\ (status resp = 403 <->
                  is_Some (tenants !! tenant_id)
                  /\ User.role g_user <> "superadmin"
                  /\ User.tenant g_user <> tenant_id)
              /\ (status resp = 404 \/ status resp = 403 \/ status resp = 200)).
  { intros tenant_id. unfold get_tenant. unfold_m.
    destruct (tenants !! tenant_id) as [tenant|].
    - destruct (String.eqb_spec (User.role g_user) "superadmin") as [Hrole|Hrole];
        destruct (String.eqb_spec (User.tenant g_user) tenant_id) as [Hten|Hten];
        simpl; eexists; (split; [reflexivity|]); simpl;
        repeat split; try discriminate; try (intros (_ & ? & ?); contradiction);
        eauto.
    - eexists. split; [reflexivity|]. simpl.
      repeat split; try discriminate; eauto.
      intros ([? ?] & _). discriminate. }
  split; [exact Hone|].
  intros absent present Habsent Hpresent.
  destruct (Hone absent) as (ra & Hra & H404a & _).
  destruct (Hone present) as (rp & Hrp & H404p & _).
  exists ra, rp. repeat split; try assumption.
  - now apply H404a.
  - intros H. apply H404p in H. destruct Hpresent as [t Ht]. congruence.
Qed.

(** ** Login *)

(** C10.  When the body of a login request is an object that names a
    recorded user and holds no password, or [null] for it, [login] does
    not answer at all: hashing the password raises [AttributeError],
    which nothing handles.  And whenever [login] answers 401, the body
    is an object in which either the username is that of no recorded
    user or the password is a string. *)
Theorem login_missing_password :
  forall e st,
    (forall kvs s user,
        request_json e = PDict kvs ->
        dict_lookup "username" kvs = Some (PStr s) ->
        users e !! s = Some user ->
        dict_lookup "password" kvs = None \/ dict_lookup "password" kvs = Some PNone ->
        login e st = (Raise AttributeError, st))
    /\ (forall resp st',
           login e st = (Return resp, st') ->
           status resp = 401 ->
           exists kvs,
             request_json e = PDict kvs
             /\ ((forall s, dict_lookup "username" kvs = Some (PStr s) ->
                            users e !! s = None)
                 \/ exists p, dict_lookup "password" kvs = Some (PStr p))).
Proof.
  intros e st. split.
  - intros kvs s user Hjson Hname Huser Hpass.
    unfold login, users_get. unfold_m. rewrite Hjson. simpl.
    rewrite Hname, Huser.
    destruct Hpass as [-> | ->]; reflexivity.
  - intros resp st'. unfold login, users_get. unfold_m.
    destruct (request_json e) as [| | | | |kvs|]; simpl; try discriminate.
    intros Hrun Hstatus. exists kvs. split; [reflexivity|].
    destruct (dict_lookup "username" kvs) as [[| | |s| | |]|]; simpl in Hrun;
      try discriminate; try (left; intros; discriminate).
    destruct (users e !! s) as [user|] eqn:Huser.
    + right.
      destruct (dict_lookup "password" kvs) as [[| | |p| | |]|]; simpl in Hrun;
        try discriminate.
      now exists p.
    + left. intros s' Heq. injection Heq as <-. exact Huser.
Qed.

(** ** The theorems at sample requests *)

Lemma resource_2_stored :
  exists r, r ∈ resources initial_state /\ Resource.id r = 2.
Proof.
  exists (Resource.mk 2 "acme" (PStr "Acme Strategy") (PStr "document")).
  split; [|reflexivity]. apply list_elem_of_In. simpl. tauto.
Defined.

Lemma resource_3_stored :
  exists r, r ∈ resources initial_state /\ Resource.id r = 3.
Proof.
  exists (Resource.mk 3 "globex" (PStr "Globex Financials") (PStr "spreadsheet")).
  split; [|reflexivity]. apply list_elem_of_In. simpl. tauto.
Defined.

(** bob lists and gets the two resources of acme; root gets the store. *)
Lemma list_resources_tenant_scoped_witness :
  (exists accessible : list Resource.t,
      fst (list_resources bob tt (world None PNone opa_allows) initial_state)
      = Return (jsonify (PDict [("resources", PList (map Resource.to_py accessible))]) 200)
      /\ accessible
         = filter (fun r => Resource.tenant r = "acme") (resources initial_state))
  /\ (exists accessible : list Resource.t,
         fst (list_resources root tt (world None PNone opa_allows) initial_state)
         = Return (jsonify (PDict [("resources", PList (map Resource.to_py accessible))])
                           200)
         /\ accessible = resources initial_state).
Proof.
  split.
  - destruct (list_resources_tenant_scoped bob (world None PNone opa_allows)
                initial_state)
      as (accessible & Hrun & _ & Hfilter & _).
    exists accessible. split.
    + now rewrite Hrun.
    + apply Hfilter. discriminate.
  - destruct (list_resources_tenant_scoped root (world None PNone opa_allows)
                initial_state)
      as (accessible & Hrun & Hall & _).
    exists accessible. split.
    + now rewrite Hrun.
    + apply Hall. reflexivity.
Defined.


(** bob deletes resource 3 of globex. *)
Lemma delete_resource_existing_id_witness :
  let e := world (Some "Bearer bob.token") PNone opa_denies in
  (forall resp st',
      delete_resource bob 3 e initial_state = (Return resp, st') ->
      status resp <> 404)
  /\ exists r0,
      r0 ∈ resources initial_state /\ Resource.id r0 = 3
      /\ forall allowed st1,
          check_opa_permission bob "delete" (Some r0) e initial_state
          = (Return allowed, st1) ->
          delete_resource bob 3 e initial_state
          = if truthy allowed
            then (Return (jsonify (PDict [("message", PStr "Resource deleted")]) 200),
                  set_resources
                    (List.filter (fun r => negb (Resource.id r =? 3)) (resources st1))
                    st1)
            else (Return (jsonify (error "Forbidden") 403), st1).
Proof.
  intros e.
  exact (delete_resource_existing_id bob 3 e initial_state resource_3_stored).
Defined.

(** No header, a stale token, a forged one and a string that is no
    token, each sent to the create route. *)
Lemma require_auth_token_failures_witness :
  require_auth create_resource tt (world None PNone opa_allows) initial_state
  = (Return (jsonify (error "No token provided") 401), initial_state)
  /\ require_auth create_resource tt
       (world (Some "Bearer bob.stale") PNone opa_allows) initial_state
     = (Return (jsonify (error "Token expired") 401), initial_state)
  /\ require_auth create_resource tt
       (world (Some "Bearer bob.forged") PNone opa_allows) initial_state
     = (Return (jsonify (error "Invalid token") 401), initial_state)
  /\ require_auth create_resource tt
       (world (Some "Bearer scribble") PNone opa_allows) initial_state
     = (Return (jsonify (error "Invalid token") 401), initial_state).
Proof.
  split; [|split; [|split]].
  - apply (proj1 (require_auth_token_failures unit create_resource tt
                    (world None PNone opa_allows) initial_state)).
    left. reflexivity.
  - apply (proj1 (proj2 (require_auth_token_failures unit create_resource tt
                           (world (Some "Bearer bob.stale") PNone opa_allows)
                           initial_state)
                    "Bearer bob.stale" eq_refl eq_refl)
             [ ("username", PStr "bob"); ("tenant", PStr "acme");
               ("role", PStr "user"); ("exp", PInt 1600000000) ]
             1600000000).
    + reflexivity.
    + reflexivity.
    + simpl. lia.
  - apply (proj1 (proj2 (proj2 (require_auth_token_failures unit create_resource tt
                                  (world (Some "Bearer bob.forged") PNone opa_allows)
                                  initial_state)
                           "Bearer bob.forged" eq_refl eq_refl))
             (sample_claims "bob" "acme" "admin" 1700086400)).
    reflexivity.
  - apply (proj2 (proj2 (proj2 (require_auth_token_failures unit create_resource tt
                                  (world (Some "Bearer scribble") PNone opa_allows)
                                  initial_state)
                           "Bearer scribble" eq_refl eq_refl))).
    reflexivity.
Defined.

(** A verified token that names nobody, and one whose username is a
    list. *)
Lemma require_auth_username_missing_witness :
  require_auth create_resource tt
    (token_world (Claims (PDict [("exp", PInt 1700086400)]) true)
       (Some "Bearer anonymous.token") PNone opa_allows)
    initial_state
  = (Raise KeyError, initial_state).
Proof.
  apply (require_auth_username_missing unit create_resource tt
           (token_world (Claims (PDict [("exp", PInt 1700086400)]) true)
              (Some "Bearer anonymous.token") PNone opa_allows)
           initial_state "Bearer anonymous.token" [("exp", PInt 1700086400)]
           eq_refl eq_refl eq_refl eq_refl).
Defined.

Lemma require_auth_unhashable_username_witness :
  require_auth create_resource tt
    (token_world
       (Claims (PDict [("username", PList [PStr "mallory"]);
                       ("exp", PInt 1700086400)]) true)
       (Some "Bearer listed.token") PNone opa_allows)
    initial_state
  = (Raise TypeError, initial_state).
Proof.
  apply (require_auth_unhashable_username unit create_resource tt
           (token_world
              (Claims (PDict [("username", PList [PStr "mallory"]);
                              ("exp", PInt 1700086400)]) true)
              (Some "Bearer listed.token") PNone opa_allows)
           initial_state "Bearer listed.token"
           [("username", PList [PStr "mallory"]); ("exp", PInt 1700086400)]
           (PList [PStr "mallory"])
           eq_refl eq_refl eq_refl eq_refl eq_refl).
Defined.

(** A good token for mallory, who is not in the directory, and one for
    bob, who is. *)
Lemma require_auth_principal_not_found_witness :
  let e := world (Some "Bearer mallory.token") PNone opa_allows in
  require_auth create_resource tt e initial_state
  = (Return (jsonify (error "User not found") 401), initial_state).
Proof.
  intros e.
  apply (proj1 (require_auth_principal_not_found unit create_resource tt e initial_state
                  "Bearer mallory.token"
                  (sample_claims "mallory" "acme" "admin" 1700086400)
                  (PStr "mallory") eq_refl eq_refl eq_refl eq_refl eq_refl)).
  intros s Hs. injection Hs as <-. reflexivity.
Defined.

(** bob renames resource 2 and tries to move it to globex. *)
Lemma update_resource_frame_witness :
  let e := world (Some "Bearer bob.token")
                 (PDict [("name", PStr "Plan"); ("tenant", PStr "globex")])
                 opa_allows in
  exists (i : nat) (r0 : Resource.t),
    resources initial_state !! i = Some r0
    /\ Resource.id r0 = 2
    /\ same_but_name_type i (resources initial_state)
         (resources (snd (update_resource bob 2 e initial_state)))
    /\ next_resource_id (snd (update_resource bob 2 e initial_state))
       = next_resource_id initial_state
    /\ forall allowed st1,
        check_opa_permission bob "update" (Some r0) e initial_state
        = (Return allowed, st1) ->
        resources st1 = resources initial_state
        /\ (truthy allowed = false ->
            update_resource bob 2 e initial_state
            = (Return (jsonify (error "Forbidden") 403), st1))
        /\ (truthy allowed = true ->
            forall kvs,
              request_json e = PDict kvs ->
              update_resource bob 2 e initial_state
              = (Return
                   (jsonify (PDict [("resource", Resource.to_py (updated kvs r0))]) 200),
                 set_resources (<[i := updated kvs r0]> (resources st1)) st1)).
Proof.
  intros e.
  exact (proj2 (update_resource_frame bob 2 e initial_state) resource_2_stored).
Defined.

(** bob updates resource 2 while the decision point answers "no". *)
Lemma update_resource_non_boolean_decision_witness :
  exists r0 resp st',
    r0 ∈ resources initial_state /\ Resource.id r0 = 2
    /\ fst (check_opa_permission bob "update" (Some r0)
              (world None (PDict [("name", PStr "Plan")])
                 (opa_answers 200 (PDict [("result", PStr "no")]))) initial_state)
       = Return (PStr "no")
    /\ PStr "no" <> PBool true
    /\ update_resource bob 2
         (world None (PDict [("name", PStr "Plan")])
            (opa_answers 200 (PDict [("result", PStr "no")]))) initial_state
       = (Return resp, st')
    /\ status resp = 200.
Proof.
  exact (update_resource_non_boolean_decision bob 2 None [("name", PStr "Plan")]
           initial_state resource_2_stored).
Defined.

(** bob asks for globex, which exists, and for a tenant that does not. *)
Lemma get_tenant_status_witness :
  exists resp_absent resp_present,
    get_tenant bob "initech" (world None PNone opa_allows) initial_state
    = (Return resp_absent, initial_state)
    /\ get_tenant bob "globex" (world None PNone opa_allows) initial_state
       = (Return resp_present, initial_state)
    /\ status resp_absent = 404
    /\ status resp_present <> 404.
Proof.
  apply (proj2 (get_tenant_status bob (world None PNone opa_allows) initial_state)
           "initech" "globex").
  - reflexivity.
  - exists (Tenant.mk "globex" "Globex Inc" None true). reflexivity.
Defined.

(** A login for bob without a password. *)
Lemma login_missing_password_witness :
  login (world None (PDict [("username", PStr "bob")]) opa_allows) initial_state
  = (Raise AttributeError, initial_state).
Proof.
  apply (proj1 (login_missing_password
                  (world None (PDict [("username", PStr "bob")]) opa_allows)
                  initial_state)
           [("username", PStr "bob")] "bob" bob).
  - reflexivity.
  - reflexivity.
  - reflexivity.
  - left. reflexivity.
Defined.

(** * Further properties of the routes *)

(** ** The decorator in full *)

Lemma jwt_decode_cases token key e st :
  (exists claims, jwt_decode token key e st = (Return (PDict claims), st))
  \/ (exists x, jwt_decode token key e st = (Raise x, st)
                /\ (x = DecodeError \/ x = InvalidSignatureError
                    \/ x = ExpiredSignatureError)).
Proof.
  unfold jwt_decode.
  destruct (jwt_segments e key token) as [|payload [|]]; simpl; eauto 6.
  destruct payload as [| | | | |claims|]; eauto 6.
  destruct (dict_lookup "exp" claims) as [[| |exp| | | |]|]; eauto 6.
  destruct (exp <=? utcnow e); eauto 6.
Qed.

(** The three ways in which a decorated view can end. *)
Lemma require_auth_outcomes :
  forall (Args : Type) (f : User.t -> Args -> M response) (args : Args) e st,
    (exists resp, status resp = 401
                  /\ require_auth f args e st = (Return resp, st))
    \/ (exists x, (x = KeyError \/ x = TypeError)
                  /\ require_auth f args e st = (Raise x, st))
    \/ (exists h claims s g_user,
           request_authorization e = Some h
           /\ String.prefix "Bearer " h = true
           /\ jwt_decode (token_of h) SECRET_KEY e st = (Return (PDict claims), st)
           /\ dict_lookup "username" claims = Some (PStr s)
           /\ users e !! s = Some g_user
           /\ require_auth f args e st = f g_user args e st).
Proof.
  intros Args f args e st.
  unfold require_auth. unfold_m.
  destruct (request_authorization e) as [h|] eqn:Hheader; [|auth_rejected].
  assert (Hcases : String.prefix "Bearer " h = true
                   \/ String.prefix "Bearer " h = false)
    by (destruct (String.prefix "Bearer " h); auto).
  destruct Hcases as [Hprefix|Hprefix].
  2:{ rewrite Hprefix, orb_true_r. auth_rejected. }
  rewrite (bearer_header_accepted _ Hprefix), (bearer_second_field _ Hprefix).
  unfold try_except. unfold_m.
  destruct (jwt_decode_cases (token_of h) SECRET_KEY e st)
    as [(claims & Hdec)|(x & Hdec & Hx)]; rewrite Hdec.
  - unfold users_get. simpl.
    destruct (dict_lookup "username" claims) as [[| | |s| | |]|] eqn:Hname; simpl;
      try auth_rejected;
      try (right; left; eexists; split; [|reflexivity]; tauto).
    destruct (users e !! s) as [g_user|] eqn:Huser; [|auth_rejected].
    right; right. exists h, claims, s, g_user. repeat split; assumption.
  - destruct Hx as [-> | [-> | ->]]; simpl; auth_rejected.
Qed.

(** X1.  Whatever view [require_auth] wraps, a request ends in one of
    three ways.  It is answered 401 with the state untouched; or the
    username claim of a verified token is missing or cannot be hashed
    and [KeyError] or [TypeError] escapes, again with the state
    untouched; or the header starts with [Bearer ], its token verifies,
    the username claim is a string that is a key of the directory, and
    the outcome is that of the view run once with that user record. *)
Theorem require_auth_sound :
  forall (Args : Type) (f : User.t -> Args -> M response) (args : Args) e st,
    (exists resp, status resp = 401
                  /\ require_auth f args e st = (Return resp, st))
    \/ (exists x, (x = KeyError \/ x = TypeError)
                  /\ require_auth f args e st = (Raise x, st))
    \/ (exists h claims s g_user,
           request_authorization e = Some h
           /\ String.prefix "Bearer " h = true
           /\ jwt_decode (token_of h) SECRET_KEY e st = (Return (PDict claims), st)
           /\ dict_lookup "username" claims = Some (PStr s)
           /\ users e !! s = Some g_user
           /\ require_auth f args e st = f g_user args e st).
Proof.
  intros Args f args e st. apply require_auth_outcomes.
Qed.

(** ** Reading one resource *)

Lemma get_resource_store g_user resource_id e st :
  resources (snd (get_resource g_user resource_id e st)) = resources st
  /\ next_resource_id (snd (get_resource g_user resource_id e st))
     = next_resource_id st.
Proof.
  unfold get_resource, find_resource. unfold_m.
  destruct (list_find _ (resources st)) as [[i r]|]; [|now split].
  rewrite check_opa_permission_run.
  destruct (opa_decision _) as [allowed|x]; [|now split].
  destruct (truthy allowed); now split.
Qed.

(** X2.  [get_resource] never changes the store or the id counter.  It
    answers 404, without asking the decision point, exactly when no
    stored resource has the id.  Otherwise it asks once, about the
    first resource [r0] of that id with action "read": the answer is
    200 with the data of [r0] when the check returns a value that is
    true as a condition, 403 without any data when it is false, and an
    exception of the check escapes as it is. *)
Theorem get_resource_outcome :
  forall g_user resource_id e st,
    resources (snd (get_resource g_user resource_id e st)) = resources st
    /\ next_resource_id (snd (get_resource g_user resource_id e st))
       = next_resource_id st
    /\ ((forall r, r ∈ resources st -> Resource.id r <> resource_id) ->
        get_resource g_user resource_id e st
        = (Return (jsonify (error "Resource not found") 404), st))
    /\ ((exists r, r ∈ resources st /\ Resource.id r = resource_id) ->
        exists r0,
          r0 ∈ resources st /\ Resource.id r0 = resource_id
          /\ get_resource g_user resource_id e st
             = (match opa_decision
                        (requests_post e OPA_URL (opa_query g_user "read" (Some r0)) 2)
                with
                | Return allowed =>
                    Return (if truthy allowed
                            then jsonify (PDict [("resource", Resource.to_py r0)]) 200
                            else jsonify (error "Forbidden") 403)
                | Raise x => Raise x
                end,
                record_query (opa_query g_user "read" (Some r0)) st)).
Proof.
  intros g_user resource_id e st.
  destruct (get_resource_store g_user resource_id e st) as [Hres Hnext].
  split; [exact Hres|]. split; [exact Hnext|]. split.
  - intros Hnone. unfold get_resource, find_resource. unfold_m.
    now rewrite (find_resource_None _ _ Hnone).
  - intros Hex.
    destruct (find_resource_Some resource_id (resources st) Hex)
      as (i & r0 & Hfind & Hi & Hid).
    exists r0. split; [now apply list_elem_of_lookup_2 in Hi|].
    split; [exact Hid|].
    unfold get_resource, find_resource. unfold_m.
    rewrite Hfind, check_opa_permission_run.
    destruct (opa_decision _) as [allowed|x]; [|reflexivity].
    destruct (truthy allowed); reflexivity.
Qed.

(** bob reads resource 3 of globex while the decision point denies. *)
Lemma get_resource_outcome_witness :
  exists r0,
    r0 ∈ resources initial_state /\ Resource.id r0 = 3
    /\ fst (get_resource bob 3 (world None PNone opa_denies) initial_state)
       = Return (jsonify (error "Forbidden") 403).
Proof.
  destruct (proj2 (proj2 (proj2
              (get_resource_outcome bob 3 (world None PNone opa_denies) initial_state)))
              resource_3_stored)
    as (r0 & Hin & Hid & Hrun).
  exists r0. split; [exact Hin|]. split; [exact Hid|].
  rewrite Hrun. reflexivity.
Defined.

(** ** Logging in and coming back with the token *)

Lemma users_username e s user :
  users e !! s = Some user -> User.username user = s.
Proof.
  unfold users, users_items. simpl. intros H.
  destruct (decide (s = "alice")) as [->|H1];
    [rewrite lookup_insert_eq in H; now injection H as <-|].
  rewrite lookup_insert_ne in H by congruence.
  destruct (decide (s = "bob")) as [->|H2];
    [rewrite lookup_insert_eq in H; now injection H as <-|].
  rewrite lookup_insert_ne in H by congruence.
  destruct (decide (s = "charlie")) as [->|H3];
    [rewrite lookup_insert_eq in H; now injection H as <-|].
  rewrite lookup_insert_ne in H by congruence.
  destruct (decide (s = "diana")) as [->|H4];
    [rewrite lookup_insert_eq in H; now injection H as <-|].
  rewrite lookup_insert_ne in H by congruence.
  destruct (decide (s = "root")) as [->|H5];
    [rewrite lookup_insert_eq in H; now injection H as <-|].
  rewrite lookup_insert_ne, lookup_empty in H by congruence. discriminate.
Qed.

Lemma users_same_digest e e' :
  sha256_hexdigest e' = sha256_hexdigest e -> users e' = users e.
Proof. intros H. unfold users, users_items. now rewrite H. Qed.

Lemma login_accepts e st kvs u p user :
  request_json e = PDict kvs ->
  dict_lookup "username" kvs = Some (PStr u) ->
  dict_lookup "password" kvs = Some (PStr p) ->
  users e !! u = Some user ->
  User.password user = sha256_hexdigest e p ->
  login e st
  = (Return
         (jsonify
            (PDict
               [ ("token",
                  PStr (jwt_encode e (login_claims user (utcnow e)) SECRET_KEY));
                 ("user",
                  PDict [ ("username", PStr (User.username user));
                          ("name", PStr (User.name user));
                          ("tenant", PStr (User.tenant user));
                          ("role", PStr (User.role user)) ]) ])
            200),
       st).
Proof.
  intros Hjson Hname Hpass Huser Hdigest.
  unfold login, users_get, login_claims. unfold_m.
  rewrite Hjson. simpl. rewrite Hname, Hpass, Huser. simpl.
  now rewrite Hdigest, String.eqb_refl.
Qed.

(** X3.  For a login body that is an object with a string username,
    [login] leaves the state untouched.  With a password that is a
    string UTF-8 can encode it answers 200 exactly when the username is
    recorded and the digest of the password is the stored one, with a
    token signed over the username, tenant and role of the record and
    an expiry 24 hours ahead, and with the public profile; otherwise
    401 "Invalid credentials", the same answer for an unknown username
    and for a wrong password.  With a password that is a string holding
    a lone surrogate it answers the same 401 for an unknown username,
    and for a recorded one it does not answer: encoding the password
    raises [UnicodeEncodeError], which nothing handles. *)
Theorem login_outcome :
  forall e st kvs u,
    request_json e = PDict kvs ->
    dict_lookup "username" kvs = Some (PStr u) ->
    (forall p,
        dict_lookup "password" kvs = Some (PStr p) ->
        (forall user,
            users e !! u = Some user ->
            User.password user = sha256_hexdigest e p ->
            login e st
            = (Return
               (jsonify
                  (PDict
                     [ ("token",
                        PStr (jwt_encode e (login_claims user (utcnow e)) SECRET_KEY));
                       ("user",
                        PDict [ ("username", PStr (User.username user));
                                ("name", PStr (User.name user));
                                ("tenant", PStr (User.tenant user));
                                ("role", PStr (User.role user)) ]) ])
                  200),
             st))
        /\ (users e !! u = None
            \/ (exists user, users e !! u = Some user
                             /\ User.password user <> sha256_hexdigest e p) ->
            login e st = (Return (jsonify (error "Invalid credentials") 401), st)))
    /\ (forall p,
           dict_lookup "password" kvs = Some (PStrSurrogate p) ->
           (forall user,
               users e !! u = Some user ->
               login e st = (Raise UnicodeEncodeError, st))
           /\ (users e !! u = None ->
               login e st = (Return (jsonify (error "Invalid credentials") 401), st))).
Proof.
  intros e st kvs u Hjson Hname. split.
  - intros p Hpass. split.
    + intros user Huser Hdigest.
      now apply (login_accepts e st kvs u p user).
    + unfold login, users_get. unfold_m.
      rewrite Hjson. simpl. rewrite Hname, Hpass.
      intros [-> | (user & -> & Hne)]; [reflexivity|]. simpl.
      destruct (String.eqb_spec (User.password user) (sha256_hexdigest e p));
        [contradiction|reflexivity].
  - intros p Hpass.
    unfold login, users_get. unfold_m.
    rewrite Hjson. simpl. rewrite Hname, Hpass. split.
    + intros user ->. reflexivity.
    + intros ->. reflexivity.
Qed.

(** bob logs in with his password, with a wrong one, and with one that
    holds a lone surrogate (here U+D800, as the bytes ED A0 80). *)
Lemma login_outcome_witness :
  fst (login (world None (PDict [("username", PStr "bob"); ("password", PStr "bob123")])
                opa_allows) initial_state)
  = Return
      (jsonify
         (PDict
            [ ("token", PStr "issued.token");
              ("user",
               PDict [ ("username", PStr "bob"); ("name", PStr "Bob User");
                       ("tenant", PStr "acme"); ("role", PStr "user") ]) ])
         200)
  /\ fst (login (world None
                   (PDict [("username", PStr "bob"); ("password", PStr "guess")])
                   opa_allows) initial_state)
     = Return (jsonify (error "Invalid credentials") 401)
  /\ fst (login (world None
                   (PDict [("username", PStr "bob");
                           ("password",
                            PStrSurrogate
                              (String "237" (String "160" (String "128" ""))))])
                   opa_allows) initial_state)
     = Raise UnicodeEncodeError.
Proof.
  split; [|split].
  - rewrite (proj1 (proj1 (login_outcome
                             (world None
                                (PDict [("username", PStr "bob");
                                        ("password", PStr "bob123")])
                                opa_allows)
                             initial_state
                             [("username", PStr "bob"); ("password", PStr "bob123")]
                             "bob" eq_refl eq_refl)
                      "bob123" eq_refl)
               bob eq_refl eq_refl).
    reflexivity.
  - rewrite (proj2 (proj1 (login_outcome
                             (world None
                                (PDict [("username", PStr "bob");
                                        ("password", PStr "guess")])
                                opa_allows)
                             initial_state
                             [("username", PStr "bob"); ("password", PStr "guess")]
                             "bob" eq_refl eq_refl)
                      "guess" eq_refl)).
    + reflexivity.
    + right. exists bob. split; [reflexivity|]. discriminate.
  - rewrite (proj1 (proj2 (login_outcome
                             (world None
                                (PDict [("username", PStr "bob");
                                        ("password",
                                         PStrSurrogate
                                           (String "237" (String "160"
                                              (String "128" ""))))])
                                opa_allows)
                             initial_state
                             [("username", PStr "bob");
                              ("password",
                               PStrSurrogate
                                 (String "237" (String "160" (String "128" ""))))]
                             "bob" eq_refl eq_refl)
                      (String "237" (String "160" (String "128" ""))) eq_refl)
               bob eq_refl).
    reflexivity.
Defined.

Lemma append_cons c s s' :
  String.append (String c s) s' = String c (String.append s s').
Proof. reflexivity. Qed.

Lemma split_no_space t : no_space t = true -> split " " t = [t].
Proof.
  induction t as [|c t IH]; [reflexivity|].
  simpl. intros H. apply andb_prop in H as [Hc Ht].
  apply negb_true_iff in Hc. rewrite Hc, (IH Ht). reflexivity.
Qed.

Lemma split_token_rest t rest :
  no_space t = true ->
  split " " (String.append t (String " " rest)) = t :: split " " rest.
Proof.
  induction t as [|c t IH]; [reflexivity|].
  simpl no_space. intros H. apply andb_prop in H as [Hc Ht].
  apply negb_true_iff in Hc.
  rewrite append_cons. simpl split. rewrite Hc, (IH Ht). reflexivity.
Qed.

Lemma bearer_token_whole t :
  no_space t = true ->
  String.prefix "Bearer " (String.append "Bearer " t) = true
  /\ token_of (String.append "Bearer " t) = t.
Proof.
  intros Ht. split.
  - rewrite !append_cons. simpl. repeat (destruct (ascii_dec _ _); [|congruence]).
    now destruct t.
  - unfold token_of. rewrite !append_cons. simpl.
    replace (String.append "" t) with t by reflexivity.
    now rewrite (split_no_space t Ht).
Qed.

(** X4.  What the decorator takes for the token.  After [Bearer ], a
    token without spaces is read whole, and whatever follows a further
    space is ignored; when a second space comes right after [Bearer ],
    the token read is the empty string. *)
Theorem token_of_bearer :
  forall t,
    no_space t = true ->
    String.prefix "Bearer " (String.append "Bearer " t) = true
    /\ token_of (String.append "Bearer " t) = t
    /\ (forall rest,
           token_of (String.append "Bearer " (String.append t (String " " rest))) = t)
    /\ (forall rest,
           token_of (String.append "Bearer " (String " " rest)) = "").
Proof.
  intros t Ht. split; [|split; [|split]].
  - apply (bearer_token_whole t Ht).
  - apply (bearer_token_whole t Ht).
  - intros rest. unfold token_of. rewrite !append_cons. simpl.
    replace (String.append "" (String.append t (String " " rest)))
      with (String.append t (String " " rest)) by reflexivity.
    now rewrite (split_token_rest t rest Ht).
  - intros rest. unfold token_of. rewrite !append_cons. reflexivity.
Qed.

Lemma token_of_bearer_witness :
  token_of "Bearer bob.token" = "bob.token"
  /\ token_of "Bearer bob.token trailing words" = "bob.token".
Proof.
  split.
  - exact (proj1 (proj2 (token_of_bearer "bob.token" eq_refl))).
  - exact (proj1 (proj2 (proj2 (token_of_bearer "bob.token" eq_refl)))
             "trailing words").
Defined.

(** X5.  Login and decorator fit together.  Let [login] succeed for a
    recorded user and sign a token, let the token hold no space, and let
    a later request carry it as [Bearer <token>] to a server with the
    same digest function whose token library reads the token back with
    a good signature.  Before the 24 hours are over the wrapped view is
    run with that very user record; from then on the answer is 401
    "Token expired". *)
Theorem login_token_authenticates :
  forall (Args : Type) (f : User.t -> Args -> M response) (args : Args)
         e st kvs u p user e' st',
    request_json e = PDict kvs ->
    dict_lookup "username" kvs = Some (PStr u) ->
    dict_lookup "password" kvs = Some (PStr p) ->
    users e !! u = Some user ->
    User.password user = sha256_hexdigest e p ->
    sha256_hexdigest e' = sha256_hexdigest e ->
    jwt_segments e' SECRET_KEY (jwt_encode e (login_claims user (utcnow e)) SECRET_KEY)
    = Claims (login_claims user (utcnow e)) true ->
    no_space (jwt_encode e (login_claims user (utcnow e)) SECRET_KEY) = true ->
    request_authorization e'
    = Some (String.append "Bearer "
              (jwt_encode e (login_claims user (utcnow e)) SECRET_KEY)) ->
    (exists resp,
        login e st = (Return resp, st)
        /\ status resp = 200
        /\ field "token" (body resp)
           = Some (PStr (jwt_encode e (login_claims user (utcnow e)) SECRET_KEY)))
    /\ (utcnow e' < utcnow e + 24 * 3600 ->
        require_auth f args e' st' = f user args e' st')
    /\ (utcnow e + 24 * 3600 <= utcnow e' ->
        require_auth f args e' st'
        = (Return (jsonify (error "Token expired") 401), st')).
Proof.
  intros Args f args e st kvs u p user e' st'
         Hjson Hname Hpass Huser Hdigest Hsha Hseg Hspace Hheader.
  destruct (bearer_token_whole _ Hspace) as (Hprefix & Htoken).
  split.
  - eexists. split.
    + exact (login_accepts e st kvs u p user Hjson Hname Hpass Huser Hdigest).
    + split; reflexivity.
  - assert (Hrun : forall b : bool,
               (utcnow e + 24 * 3600 <=? utcnow e') = b ->
               require_auth f args e' st'
               = if b then (Return (jsonify (error "Token expired") 401), st')
                 else f user args e' st').
    { intros b Hb.
      enter_bearer Hheader Hprefix. rewrite Htoken, Hseg. simpl. rewrite Hb.
      destruct b; [reflexivity|]. simpl. unfold users_get.
      rewrite (users_same_digest e e' Hsha), (users_username e u user Huser), Huser.
      reflexivity. }
    split; intros Htime.
    + apply (Hrun false). apply Z.leb_gt. lia.
    + apply (Hrun true). apply Z.leb_le. lia.
Qed.

(** bob logs in at time 1700000000 and creates a resource an hour later;
    two days later the token is refused. *)
Lemma login_token_authenticates_witness :
  let e := session_world 1700000000 None
             (PDict [("username", PStr "bob"); ("password", PStr "bob123")])
             opa_allows in
  (require_auth create_resource tt
     (session_world 1700003600 (Some "Bearer signed.by.login")
        (PDict [("name", PStr "memo")]) opa_allows)
     initial_state
   = create_resource bob tt
       (session_world 1700003600 (Some "Bearer signed.by.login")
          (PDict [("name", PStr "memo")]) opa_allows)
       initial_state)
  /\ require_auth create_resource tt
       (session_world 1700172800 (Some "Bearer signed.by.login")
          (PDict [("name", PStr "memo")]) opa_allows)
       initial_state
     = (Return (jsonify (error "Token expired") 401), initial_state).
Proof.
  intros e. split.
  - apply (proj1 (proj2
             (login_token_authenticates unit create_resource tt e initial_state
                [("username", PStr "bob"); ("password", PStr "bob123")]
                "bob" "bob123" bob
                (session_world 1700003600 (Some "Bearer signed.by.login")
                   (PDict [("name", PStr "memo")]) opa_allows)
                initial_state
                eq_refl eq_refl eq_refl eq_refl eq_refl eq_refl eq_refl eq_refl
                eq_refl))).
    simpl. lia.
  - apply (proj2 (proj2
             (login_token_authenticates unit create_resource tt e initial_state
                [("username", PStr "bob"); ("password", PStr "bob123")]
                "bob" "bob123" bob
                (session_world 1700172800 (Some "Bearer signed.by.login")
                   (PDict [("name", PStr "memo")]) opa_allows)
                initial_state
                eq_refl eq_refl eq_refl eq_refl eq_refl eq_refl eq_refl eq_refl
                eq_refl))).
    simpl. lia.
Defined.

(** ** What a request can do to the store *)

Lemma allowed_by_opa_intro g_user action resource e st st' allowed :
  opa_decision (requests_post e OPA_URL (opa_query g_user action resource) 2)
  = Return allowed ->
  truthy allowed = true ->
  opa_queries st' = opa_queries (record_query (opa_query g_user action resource) st) ->
  allowed_by_opa e st st'.
Proof.
  intros Hd Ht Hq. exists (opa_query g_user action resource), allowed.
  now repeat split.
Qed.

Lemma create_resource_change s g_user e st :
  users e !! s = Some g_user ->
  store_change e st (snd (create_resource g_user tt e st)).
Proof.
  intros Huser. unfold create_resource. unfold bind at 1.
  rewrite check_opa_permission_run.
  destruct (opa_decision _) as [allowed|x] eqn:Hd; [|now apply store_unchanged].
  destruct (truthy allowed) eqn:Ht; simpl; [|now apply store_unchanged].
  unfold_m. simpl.
  destruct (py_get (request_json e) "name" PNone) as [new_name|];
    [|now apply store_unchanged].
  destruct (py_get (request_json e) "type" (PStr "document")) as [new_type|];
    [|now apply store_unchanged].
  simpl.
  eapply (store_appended e st _ _ s g_user); try reflexivity; try exact Huser.
  eapply allowed_by_opa_intro; [exact Hd|exact Ht|reflexivity].
Qed.

Lemma update_resource_queries g_user resource_id e st i r0 :
  list_find (fun r => Resource.id r = resource_id) (resources st) = Some (i, r0) ->
  opa_queries (snd (update_resource g_user resource_id e st))
  = (opa_queries st ++ [opa_query g_user "update" (Some r0)])%list.
Proof.
  intros Hfind. unfold update_resource, find_resource, assign. unfold_m.
  rewrite Hfind, check_opa_permission_run.
  destruct (opa_decision _) as [allowed|x]; [|reflexivity].
  destruct (truthy allowed); simpl; [|reflexivity].
  destruct (py_contains "name" (request_json e)) as [[|]|]; simpl; [| |reflexivity].
  - destruct (py_getitem (request_json e) "name") as [v|]; simpl; [|reflexivity].
    destruct (py_contains "type" (request_json e)) as [[|]|]; simpl;
      try reflexivity.
    destruct (py_getitem (request_json e) "type") as [w|]; reflexivity.
  - destruct (py_contains "type" (request_json e)) as [[|]|]; simpl;
      try reflexivity.
    destruct (py_getitem (request_json e) "type") as [w|]; reflexivity.
Qed.

Lemma update_resource_change g_user resource_id e st :
  store_change e st (snd (update_resource g_user resource_id e st)).
Proof.
  destruct (list_find (fun r => Resource.id r = resource_id) (resources st))
    as [[i r0]|] eqn:Hfind.
  2:{ unfold update_resource, find_resource. unfold_m. rewrite Hfind.
      now apply store_unchanged. }
  destruct (update_resource_store g_user resource_id e st i r0 Hfind)
    as (f & Hf & Hres & Hnext).
  pose proof (update_resource_queries g_user resource_id e st i r0 Hfind) as Hq.
  destruct (opa_decision
              (requests_post e OPA_URL (opa_query g_user "update" (Some r0)) 2))
    as [allowed|x] eqn:Hd.
  - destruct (truthy allowed) eqn:Ht.
    + apply (store_rewritten e st _ i f Hf Hres Hnext).
      eapply allowed_by_opa_intro; [exact Hd|exact Ht|exact Hq].
    + unfold update_resource, find_resource. unfold_m.
      rewrite Hfind, check_opa_permission_run, Hd, Ht. now apply store_unchanged.
  - unfold update_resource, find_resource. unfold_m.
    rewrite Hfind, check_opa_permission_run, Hd. now apply store_unchanged.
Qed.

Lemma delete_resource_change g_user resource_id e st :
  store_change e st (snd (delete_resource g_user resource_id e st)).
Proof.
  unfold delete_resource, find_resource. unfold_m.
  destruct (list_find _ (resources st)) as [[i r0]|]; [|now apply store_unchanged].
  rewrite check_opa_permission_run.
  destruct (opa_decision _) as [allowed|x] eqn:Hd; [|now apply store_unchanged].
  destruct (truthy allowed) eqn:Ht; simpl; [|now apply store_unchanged].
  apply (store_removed e st _ resource_id); try reflexivity.
  eapply allowed_by_opa_intro; [exact Hd|exact Ht|reflexivity].
Qed.

(** Every route, by cases. *)
Lemma dispatch_changes_store :
  forall r e st, store_change e st (snd (dispatch r e st)).
Proof.
  intros r e st.
  assert (Hsame : forall st1, st1 = st -> store_change e st st1)
    by (intros st1 ->; now apply store_unchanged).
  assert (Hauth : forall (Args : Type) (f : User.t -> Args -> M response) args,
             (forall s g_user, users e !! s = Some g_user ->
                               store_change e st (snd (f g_user args e st))) ->
             store_change e st (snd (require_auth f args e st))).
  { intros Args f args Hf.
    destruct (require_auth_outcomes Args f args e st)
      as [(resp & _ & ->)|[(x & _ & ->)|(h & claims & s & g_user & _ & _ & _ & _ & Hu & ->)]];
      [now apply Hsame|now apply Hsame|now apply (Hf s)]. }
  destruct r; simpl.
  - now apply Hsame.
  - apply Hsame, login_state.
  - apply Hauth. intros. apply Hsame, list_resources_state.
  - apply Hauth. intros s g_user Hu. now apply (create_resource_change s).
  - apply Hauth. intros.
    destruct (get_resource_store g_user resource_id e st) as (Hres & Hnext).
    now apply store_unchanged.
  - apply Hauth. intros. apply update_resource_change.
  - apply Hauth. intros. apply delete_resource_change.
  - apply Hauth. intros. apply Hsame, list_tenants_state.
  - apply Hauth. intros. apply Hsame, get_tenant_state.
Qed.


(** ** Ids are unique and are not used again *)







(** ** Tenants of stored resources *)

Lemma users_tenant e s user :
  users e !! s = Some user -> is_Some (tenants !! User.tenant user).
Proof.
  intros H. apply elem_of_list_to_map_2 in H.
  apply list_elem_of_In in H. simpl in H.
  apply tenants_keys.
  destruct H as [H|[H|[H|[H|[H|[]]]]]]; injection H as _ <-; simpl; tauto.
Qed.

Lemma store_change_origin e st st' r' :
  store_change e st st' ->
  r' ∈ resources st' ->
  (exists r0, r0 ∈ resources st /\ Resource.id r0 = Resource.id r'
              /\ Resource.tenant r0 = Resource.tenant r')
  \/ (Resource.id r' = next_resource_id st
      /\ exists s g_user, users e !! s = Some g_user
                          /\ Resource.tenant r' = User.tenant g_user).
Proof.
  intros [Hres _|r s g_user Hres _ Hid Hu Ht _|i f Hf Hres _ _|rid Hres _ _] Hin;
    rewrite Hres in Hin.
  - left. now exists r'.
  - apply elem_of_app in Hin as [Hin|Hin].
    + left. now exists r'.
    + apply list_elem_of_singleton in Hin as ->. right. split; [exact Hid|].
      now exists s, g_user.
  - left. apply list_elem_of_lookup in Hin as [j Hj].
    destruct (decide (i = j)) as [->|Hne].
    + rewrite list_lookup_alter_eq in Hj.
      destruct (resources st !! j) as [r0|] eqn:Hr0; [|discriminate].
      simpl in Hj. injection Hj as <-. exists r0.
      destruct (Hf r0) as [-> ->].
      split; [|now split]. apply list_elem_of_lookup. now exists j.
    + rewrite list_lookup_alter_ne in Hj by exact Hne.
      exists r'. split; [|now split]. apply list_elem_of_lookup. now exists j.
  - left. exists r'. apply list_elem_of_In, List.filter_In in Hin as [Hin _].
    split; [now apply list_elem_of_In|now split].
Qed.

(** X8.  A request never moves a stored resource to another tenant and
    never lowers the id counter: every resource in the store after the
    request either has the id and the tenant of a resource that was
    there before, or has the former value of the counter as its id and
    the tenant of a user of the directory. *)
Theorem dispatch_keeps_tenants :
  forall r e st,
    next_resource_id st <= next_resource_id (snd (dispatch r e st))
    /\ forall r',
        r' ∈ resources (snd (dispatch r e st)) ->
        (exists r0, r0 ∈ resources st /\ Resource.id r0 = Resource.id r'
                    /\ Resource.tenant r0 = Resource.tenant r')
        \/ (Resource.id r' = next_resource_id st
            /\ exists s g_user, users e !! s = Some g_user
                                /\ Resource.tenant r' = User.tenant g_user).
Proof.
  intros r e st. pose proof (dispatch_changes_store r e st) as Hchange. split.
  - destruct Hchange as [_ ->|? ? ? _ -> _ _ _ _|? ? _ _ -> _|? _ -> _]; lia.
  - intros r'. now apply store_change_origin.
Qed.

(** X9.  In every state the server can reach, the tenant of each stored
    resource is a tenant of the tenant directory. *)
Theorem reachable_resource_tenants :
  forall st,
    reachable st ->
    forall r, r ∈ resources st -> is_Some (tenants !! Resource.tenant r).
Proof.
  induction 1 as [|st st' e route out Hreach IH Hstep]; intros r Hin.
  - apply list_elem_of_In in Hin. simpl in Hin. apply tenants_keys.
    destruct Hin as [<-|[<-|[<-|[<-|[]]]]]; simpl; tauto.
  - replace st' with (snd (dispatch route e st)) in Hin by now rewrite Hstep.
    destruct (store_change_origin e st _ r (dispatch_changes_store route e st) Hin)
      as [(r0 & Hin0 & _ & <-)|(_ & s & g_user & Hu & ->)].
    + now apply IH.
    + now apply (users_tenant e s).
Qed.

(** The resource bob creates while naming tenant "initech" in the body. *)
Lemma reachable_resource_tenants_witness :
  let e := world (Some "Bearer bob.token")
                 (PDict [("tenant", PStr "initech"); ("name", PStr "memo")])
                 opa_allows in
  is_Some (tenants !! Resource.tenant
                        (Resource.mk 5 "acme" (PStr "memo") (PStr "document"))).
Proof.
  intros e.
  apply (reachable_resource_tenants (snd (dispatch CreateResource e initial_state))).
  - apply (reachable_request initial_state _ e CreateResource
             (fst (dispatch CreateResource e initial_state)));
      [apply reachable_initial|reflexivity].
  - apply list_elem_of_In. vm_compute. do 4 right. left. reflexivity.
Defined.

(** ** When the decision point is out of reach *)

Lemma unavailable_denies e :
  (forall q,
      (exists x, requests_post e OPA_URL q 2 = Raise x
                 /\ issubclass x RequestException = true)
      \/ (exists resp, requests_post e OPA_URL q 2 = Return resp
                       /\ status_code resp <> 200)) ->
  forall q, opa_decision (requests_post e OPA_URL q 2) = Return (PBool false).
Proof.
  intros H q. apply opa_decision_fail_closed.
  destruct (H q) as [(x & Hx & Hsub)|(resp & Hr & Hne)]; [left|right]; eauto.
Qed.

Lemma require_auth_not_succeeded {Args} (f : User.t -> Args -> M response) args e st :
  (forall g_user, succeeded (fst (f g_user args e st)) = false) ->
  succeeded (fst (require_auth f args e st)) = false.
Proof.
  intros Hf.
  destruct (require_auth_outcomes Args f args e st)
    as [(resp & H401 & ->)|[(x & _ & ->)|(h & c & s & g_user & _ & _ & _ & _ & _ & ->)]].
  - simpl. now rewrite H401.
  - reflexivity.
  - apply Hf.
Qed.

(** X10.  Fail-closed, for the whole pipeline.  If every POST to the
    decision point fails with an error of [requests] (no connection,
    timeout) or is answered with a status other than 200, then no
    request changes the store or the id counter, and the create, read,
    update and delete routes never answer 200 or 201. *)
Theorem dispatch_fail_closed :
  forall r e st,
    (forall q,
        (exists x, requests_post e OPA_URL q 2 = Raise x
                   /\ issubclass x RequestException = true)
        \/ (exists resp, requests_post e OPA_URL q 2 = Return resp
                         /\ status_code resp <> 200)) ->
    resources (snd (dispatch r e st)) = resources st
    /\ next_resource_id (snd (dispatch r e st)) = next_resource_id st
    /\ (r = CreateResource
        \/ (exists resource_id,
               r = GetResource resource_id \/ r = UpdateResource resource_id
               \/ r = DeleteResource resource_id) ->
        succeeded (fst (dispatch r e st)) = false).
Proof.
  intros r e st Hdown.
  pose proof (unavailable_denies e Hdown) as Hdeny.
  assert (Hstore : resources (snd (dispatch r e st)) = resources st
                   /\ next_resource_id (snd (dispatch r e st)) = next_resource_id st).
  { destruct (dispatch_changes_store r e st)
      as [Hres Hnext|? ? ? _ _ _ _ _ Hok|? ? _ _ _ Hok|? _ _ Hok];
      [now split| | |];
      destruct Hok as (q & allowed & _ & Hd & Ht);
      rewrite Hdeny in Hd; injection Hd as <-; discriminate. }
  destruct Hstore as [Hres Hnext]. split; [exact Hres|]. split; [exact Hnext|].
  intros [-> | (resource_id & [-> | [-> | ->]])]; simpl;
    apply require_auth_not_succeeded; intros g_user.
  - unfold create_resource. unfold bind at 1.
    now rewrite check_opa_permission_run, Hdeny.
  - unfold get_resource, find_resource. unfold_m.
    destruct (list_find _ (resources st)) as [[i r0]|]; [|reflexivity].
    now rewrite check_opa_permission_run, Hdeny.
  - unfold update_resource, find_resource. unfold_m.
    destruct (list_find _ (resources st)) as [[i r0]|]; [|reflexivity].
    now rewrite check_opa_permission_run, Hdeny.
  - unfold delete_resource, find_resource. unfold_m.
    destruct (list_find _ (resources st)) as [[i r0]|]; [|reflexivity].
    now rewrite check_opa_permission_run, Hdeny.
Qed.

(** bob tries to delete his own tenant's resource 2 while the decision
    point answers 500. *)
Lemma dispatch_fail_closed_witness :
  let e := world (Some "Bearer bob.token") PNone (opa_answers 500 PNone) in
  resources (snd (dispatch (DeleteResource 2) e initial_state))
  = resources initial_state
  /\ next_resource_id (snd (dispatch (DeleteResource 2) e initial_state))
     = next_resource_id initial_state
  /\ succeeded (fst (dispatch (DeleteResource 2) e initial_state)) = false.
Proof.
  intros e.
  assert (Hdown : forall q,
             (exists x, requests_post e OPA_URL q 2 = Raise x
                        /\ issubclass x RequestException = true)
             \/ (exists resp, requests_post e OPA_URL q 2 = Return resp
                              /\ status_code resp <> 200)).
  { intros q. right. eexists. split; [reflexivity|]. simpl. lia. }
  destruct (dispatch_fail_closed (DeleteResource 2) e initial_state Hdown)
    as (Hres & Hnext & Hfail).
  split; [exact Hres|]. split; [exact Hnext|].
  apply Hfail. right. exists 2. right. right. reflexivity.
Defined.

(** ** One request after another *)

Lemma delete_resource_200 g_user resource_id e st resp st' :
  delete_resource g_user resource_id e st = (Return resp, st') ->
  status resp = 200 ->
  resources st'
  = List.filter (fun r => negb (Resource.id r =? resource_id)) (resources st).
Proof.
  unfold delete_resource, find_resource. unfold_m.
  destruct (list_find _ (resources st)) as [[i r0]|].
  2:{ intros H. injection H as <- <-. discriminate. }
  rewrite check_opa_permission_run.
  destruct (opa_decision _) as [allowed|x]; [|discriminate].
  destruct (truthy allowed); simpl; intros H; injection H as <- <-;
    [reflexivity|discriminate].
Qed.

(** X11.  After a delete request answered 200, the store holds exactly
    the resources it held before whose id is another one, and from that
    state a read, an update or a second delete of the same id is
    answered 404 for every caller, without a query to the decision
    point. *)
Theorem delete_then_absent :
  forall g_user resource_id e st resp st',
    delete_resource g_user resource_id e st = (Return resp, st') ->
    status resp = 200 ->
    (forall r, r ∈ resources st' <->
               r ∈ resources st /\ Resource.id r <> resource_id)
    /\ forall g_user2 e2,
        get_resource g_user2 resource_id e2 st'
        = (Return (jsonify (error "Resource not found") 404), st')
        /\ update_resource g_user2 resource_id e2 st'
           = (Return (jsonify (error "Resource not found") 404), st')
        /\ delete_resource g_user2 resource_id e2 st'
           = (Return (jsonify (error "Resource not found") 404), st').
Proof.
  intros g_user resource_id e st resp st' Hrun Hstatus.
  pose proof (delete_resource_200 _ _ _ _ _ _ Hrun Hstatus) as Hres.
  assert (Hmem : forall r, r ∈ resources st' <->
                           r ∈ resources st /\ Resource.id r <> resource_id).
  { intros r. rewrite Hres, !list_elem_of_In, List.filter_In.
    destruct (Z.eqb_spec (Resource.id r) resource_id); simpl; intuition congruence. }
  split; [exact Hmem|].
  assert (Hnone : list_find (fun r => Resource.id r = resource_id) (resources st')
                  = None).
  { apply find_resource_None. intros r Hin. now apply Hmem in Hin. }
  intros g_user2 e2.
  unfold get_resource, update_resource, delete_resource, find_resource. unfold_m.
  rewrite Hnone. repeat split.
Qed.

(** alice's tenant mate bob deletes resource 2, with permission. *)
Lemma delete_then_absent_witness :
  let e := world (Some "Bearer bob.token") PNone opa_allows in
  get_resource root 2 e (snd (delete_resource bob 2 e initial_state))
  = (Return (jsonify (error "Resource not found") 404),
     snd (delete_resource bob 2 e initial_state)).
Proof.
  intros e.
  apply (proj2 (delete_then_absent bob 2 e initial_state
                  (jsonify (PDict [("message", PStr "Resource deleted")]) 200)
                  (snd (delete_resource bob 2 e initial_state))
                  eq_refl eq_refl) root e).
Defined.

Lemma create_resource_201 g_user e st resp st' :
  create_resource g_user tt e st = (Return resp, st') ->
  status resp = 201 ->
  exists r,
    resp = jsonify (PDict [("resource", Resource.to_py r)]) 201
    /\ Resource.id r = next_resource_id st
    /\ Resource.tenant r = User.tenant g_user
    /\ resources st' = (resources st ++ [r])%list.
Proof.
  unfold create_resource. unfold bind at 1. rewrite check_opa_permission_run.
  destruct (opa_decision _) as [allowed|x]; [|discriminate].
  destruct (truthy allowed); simpl.
  2:{ unfold_m. intros H. injection H as <- <-. discriminate. }
  unfold_m. simpl.
  destruct (py_get (request_json e) "name" PNone) as [new_name|]; [|discriminate].
  destruct (py_get (request_json e) "type" (PStr "document")) as [new_type|];
    [|discriminate].
  intros H _. injection H as <- <-. eexists. repeat split.
Qed.



Lemma create_resource_resources g_user e st :
  resources (snd (create_resource g_user tt e st)) = resources st
  \/ exists r,
      Resource.tenant r = User.tenant g_user
      /\ resources (snd (create_resource g_user tt e st)) = (resources st ++ [r])%list.
Proof.
  remember (create_resource g_user tt e st) as run eqn:Hrun.
  unfold create_resource in Hrun. unfold bind at 1 in Hrun.
  rewrite check_opa_permission_run in Hrun.
  destruct (opa_decision _) as [allowed|x]; [|subst run; now left].
  destruct (truthy allowed); simpl in Hrun; [|subst run; now left].
  unfold_m. simpl in Hrun.
  destruct (py_get (request_json e) "name" PNone) as [new_name|];
    [|subst run; now left].
  destruct (py_get (request_json e) "type" (PStr "document")) as [new_type|];
    [|subst run; now left].
  subst run. right. eexists. split; [|reflexivity]. reflexivity.
Qed.

(** X13.  A create request, whatever its outcome, does not change what
    a caller of another tenant who is no superadmin gets from
    [list_resources]; and after one answered 201, a caller of the
    creator's tenant who is no superadmin gets the former list followed
    by the new resource. *)
Theorem create_resource_listing :
  forall g_user e st g_user2 e2,
    User.role g_user2 <> "superadmin" ->
    (User.tenant g_user2 <> User.tenant g_user ->
     fst (list_resources g_user2 tt e2 (snd (create_resource g_user tt e st)))
     = fst (list_resources g_user2 tt e2 st))
    /\ (User.tenant g_user2 = User.tenant g_user ->
        forall resp st',
          create_resource g_user tt e st = (Return resp, st') ->
          status resp = 201 ->
          exists r,
            body resp = PDict [("resource", Resource.to_py r)]
            /\ fst (list_resources g_user2 tt e2 st')
               = Return
                   (jsonify
                      (PDict
                         [("resources",
                           PList
                             (map Resource.to_py
                                (List.filter
                                   (fun r' => String.eqb (Resource.tenant r')
                                                         (User.tenant g_user2))
                                   (resources st))
                              ++ [Resource.to_py r]))])
                      200)).
Proof.
  intros g_user e st g_user2 e2 Hrole.
  apply String.eqb_neq in Hrole.
  unfold list_resources. unfold_m. rewrite Hrole. split.
  - intros Hother.
    destruct (create_resource_resources g_user e st) as [->|(r & Ht & ->)];
      [reflexivity|].
    rewrite List.filter_app. simpl. rewrite Ht.
    apply not_eq_sym, String.eqb_neq in Hother. rewrite Hother.
    now rewrite List.app_nil_r.
  - intros Hsame resp st' Hrun Hstatus.
    destruct (create_resource_201 _ _ _ _ _ Hrun Hstatus) as (r & -> & _ & Ht & ->).
    exists r. split; [reflexivity|].
    rewrite List.filter_app. simpl. rewrite Ht, <- Hsame, String.eqb_refl.
    now rewrite List.map_app.
Qed.

(** bob of acme creates a resource; diana of globex lists as before. *)
Lemma create_resource_listing_witness :
  let e := world (Some "Bearer bob.token") (PDict [("name", PStr "memo")]) opa_allows in
  let diana := User.mk 4 "diana" (sample_digest "diana123") "globex" "user"
                       "Diana User" in
  fst (list_resources diana tt e (snd (create_resource bob tt e initial_state)))
  = fst (list_resources diana tt e initial_state).
Proof.
  intros e diana.
  apply (proj1 (create_resource_listing bob e initial_state diana e
                  ltac:(discriminate))).
  discriminate.
Defined.

(** ** Listing the tenants *)

Lemma users_superadmin e s user :
  users e !! s = Some user -> User.role user = "superadmin" -> s = "root".
Proof.
  intros H Hrole. apply elem_of_list_to_map_2 in H.
  apply list_elem_of_In in H. simpl in H.
  destruct H as [H|[H|[H|[H|[H|[]]]]]]; injection H as <- <-;
    simpl in Hrole; try discriminate.
  reflexivity.
Qed.

(** X14.  The route that lists the tenants answers 200 to root alone:
    a 200 answer means that the request carried a bearer token that
    verified and whose username claim is "root"; the answer then holds
    the three tenants in the order of the directory, and the state is
    as before. *)
Theorem list_tenants_only_root :
  forall e st resp st',
    dispatch ListTenants e st = (Return resp, st') ->
    status resp = 200 ->
    st' = st
    /\ body resp
       = PDict [("tenants", PList (map (fun kv => Tenant.to_py (snd kv)) tenants_items))]
    /\ exists h claims,
        request_authorization e = Some h
        /\ String.prefix "Bearer " h = true
        /\ jwt_decode (token_of h) SECRET_KEY e st = (Return (PDict claims), st)
        /\ dict_lookup "username" claims = Some (PStr "root").
Proof.
  intros e st resp st'. simpl.
  destruct (require_auth_outcomes unit list_tenants tt e st)
    as [(r & H401 & ->)|[(x & _ & ->)|(h & claims & s & g_user & Hh & Hp & Hd & Hn & Hu & ->)]].
  - intros H Hs. injection H as <- <-. congruence.
  - discriminate.
  - unfold list_tenants. unfold_m.
    destruct (String.eqb_spec (User.role g_user) "superadmin") as [Hrole|Hrole]; simpl.
    + intros H _. injection H as <- <-.
      split; [reflexivity|]. split; [reflexivity|].
      exists h, claims. rewrite <- (users_superadmin e s g_user Hu Hrole).
      now repeat split.
    + intros H Hs. injection H as <- <-. discriminate.
Qed.

Lemma list_tenants_only_root_witness :
  exists h claims,
    request_authorization (world (Some "Bearer root.token") PNone opa_denies) = Some h
    /\ String.prefix "Bearer " h = true
    /\ jwt_decode (token_of h) SECRET_KEY
         (world (Some "Bearer root.token") PNone opa_denies) initial_state
       = (Return (PDict claims), initial_state)
    /\ dict_lookup "username" claims = Some (PStr "root").
Proof.
  apply (list_tenants_only_root (world (Some "Bearer root.token") PNone opa_denies)
           initial_state
           (jsonify
              (PDict [("tenants",
                       PList (map (fun kv => Tenant.to_py (snd kv)) tenants_items))])
              200)
           initial_state eq_refl eq_refl).
Defined.

(** ** Routes that only read *)

(** X15.  The health, login, resource-list, tenant-list and tenant
    routes leave the whole state as it is, the record of queries to the
    decision point included: they never change the store and never ask
    the decision point, whatever the request and however it ends. *)
Theorem read_only_routes :
  forall r e st,
    r = Health \/ r = Login \/ r = ListResources \/ r = ListTenants
    \/ (exists tenant_id, r = GetTenant tenant_id) ->
    snd (dispatch r e st) = st.
Proof.
  intros r e st [-> | [-> | [-> | [-> | (tenant_id & ->)]]]]; simpl.
  - reflexivity.
  - apply login_state.
  - apply (require_auth_preserves (fun st' => st' = st)); [|reflexivity].
    intros. apply list_resources_state.
  - apply (require_auth_preserves (fun st' => st' = st)); [|reflexivity].
    intros. apply list_tenants_state.
  - apply (require_auth_preserves (fun st' => st' = st)); [|reflexivity].
    intros. apply get_tenant_state.
Qed.

Lemma read_only_routes_witness :
  snd (dispatch ListResources (world (Some "Bearer root.token") PNone opa_allows)
         initial_state)
  = initial_state.
Proof.
  apply read_only_routes. right. right. left. reflexivity.
Defined.

(** ** Update, then read *)

Lemma update_resource_200 g_user resource_id e st i r0 resp st' :
  list_find (fun r => Resource.id r = resource_id) (resources st) = Some (i, r0) ->
  update_resource g_user resource_id e st = (Return resp, st') ->
  status resp = 200 ->
  exists r',
    resp = jsonify (PDict [("resource", Resource.to_py r')]) 200
    /\ Resource.id r' = Resource.id r0
    /\ Resource.tenant r' = Resource.tenant r0
    /\ resources st' = <[i := r']> (resources st).
Proof.
  intros Hfind.
  pose proof Hfind as Hi. apply list_find_Some in Hi as (Hi & _ & _).
  unfold update_resource, find_resource, assign. unfold_m.
  rewrite Hfind, check_opa_permission_run.
  destruct (opa_decision _) as [allowed|x]; [|discriminate].
  destruct (truthy allowed); simpl.
  2:{ intros H. injection H as <- <-. discriminate. }
  destruct (py_contains "name" (request_json e)) as [[|]|]; simpl; [| |discriminate].
  - destruct (py_getitem (request_json e) "name") as [v|]; simpl; [|discriminate].
    destruct (py_contains "type" (request_json e)) as [[|]|]; simpl; [| |discriminate].
    + destruct (py_getitem (request_json e) "type") as [w|]; simpl; [|discriminate].
      intros H _. injection H as <- <-. eexists. repeat split. simpl.
      rewrite list_alter_alter_eq.
      now rewrite (alter_as_insert _ i (resources st) r0 Hi).
    + intros H _. injection H as <- <-. eexists. repeat split. simpl.
      apply (alter_as_insert _ i (resources st) r0 Hi).
  - destruct (py_contains "type" (request_json e)) as [[|]|]; simpl; [| |discriminate].
    + destruct (py_getitem (request_json e) "type") as [w|]; simpl; [|discriminate].
      intros H _. injection H as <- <-. eexists. repeat split. simpl.
      apply (alter_as_insert _ i (resources st) r0 Hi).
    + intros H _. injection H as <- <-. exists r0. repeat split. simpl.
      symmetry. now apply list_insert_id.
Qed.

(** X16.  Update, then read.  After an update request answered 200, a
    read of the same id finds the resource as updated: when the
    permission check for "read" comes out true the answer is 200 with
    the same resource document as the answer to the update, and that
    document has the id asked for. *)
Theorem update_then_get :
  forall g_user resource_id e st resp st',
    update_resource g_user resource_id e st = (Return resp, st') ->
    status resp = 200 ->
    exists r',
      body resp = PDict [("resource", Resource.to_py r')]
      /\ Resource.id r' = resource_id
      /\ r' ∈ resources st'
      /\ forall g_user2 e2 allowed,
          opa_decision
            (requests_post e2 OPA_URL (opa_query g_user2 "read" (Some r')) 2)
          = Return allowed ->
          truthy allowed = true ->
          fst (get_resource g_user2 resource_id e2 st')
          = Return (jsonify (body resp) 200).
Proof.
  intros g_user resource_id e st resp st' Hrun Hstatus.
  destruct (list_find (fun r => Resource.id r = resource_id) (resources st))
    as [[i r0]|] eqn:Hfind.
  2:{ unfold update_resource, find_resource in Hrun. unfold_m.
      rewrite Hfind in Hrun. injection Hrun as <- <-. discriminate. }
  destruct (update_resource_200 _ _ _ _ _ _ _ _ Hfind Hrun Hstatus)
    as (r' & -> & Hid & _ & Hres).
  apply list_find_Some in Hfind as (Hi & Hr0 & Hleast).
  assert (Hlen : (i < length (resources st))%nat) by (eapply lookup_lt_Some; eauto).
  assert (Hfind' : list_find (fun r => Resource.id r = resource_id) (resources st')
                   = Some (i, r')).
  { apply list_find_Some. rewrite Hres. split; [|split].
    - now apply list_lookup_insert_eq.
    - congruence.
    - intros j y Hj Hlt. rewrite list_lookup_insert_ne in Hj by lia.
      now apply (Hleast j). }
  exists r'. split; [reflexivity|]. split; [congruence|]. split.
  - apply list_find_Some in Hfind' as (Hi' & _). now apply list_elem_of_lookup_2 in Hi'.
  - intros g_user2 e2 allowed Hd Ht.
    unfold get_resource, find_resource. unfold_m.
    rewrite Hfind', check_opa_permission_run, Hd, Ht. reflexivity.
Qed.

(** bob renames resource 2; root reads it back. *)
Lemma update_then_get_witness :
  let e := world (Some "Bearer bob.token") (PDict [("name", PStr "Plan")]) opa_allows in
  exists r',
    Resource.id r' = 2
    /\ fst (get_resource root 2 e (snd (update_resource bob 2 e initial_state)))
       = Return (jsonify (PDict [("resource", Resource.to_py r')]) 200).
Proof.
  intros e.
  destruct (update_then_get bob 2 e initial_state
              (jsonify
                 (PDict [("resource",
                          Resource.to_py
                            (Resource.mk 2 "acme" (PStr "Plan") (PStr "document")))])
                 200)
              (snd (update_resource bob 2 e initial_state))
              eq_refl eq_refl)
    as (r' & Hbody & Hid & _ & Hget).
  exists r'. split; [exact Hid|].
  rewrite (Hget root e (PBool true) eq_refl eq_refl).
  simpl in Hbody. now rewrite Hbody.
Defined.

(** ** Requests that end in an exception *)

Lemma update_resource_raise g_user resource_id e st x :
  fst (update_resource g_user resource_id e st) = Raise x ->
  resources (snd (update_resource g_user resource_id e st)) = resources st.
Proof.
  unfold update_resource, find_resource, assign. unfold_m.
  destruct (list_find _ (resources st)) as [[i r0]|]; [|discriminate].
  rewrite check_opa_permission_run.
  destruct (opa_decision _) as [allowed|y]; [|reflexivity].
  destruct (truthy allowed); simpl; [|discriminate].
  destruct (request_json e) as [| | |s|xs|kvs|s]; simpl; try reflexivity.
  - destruct (substring_of "name" s); simpl; [reflexivity|].
    destruct (substring_of "type" s); simpl; [reflexivity|discriminate].
  - destruct (existsb _ xs); simpl; [reflexivity|].
    destruct (existsb _ xs); simpl; [reflexivity|discriminate].
  - destruct (dict_lookup "name" kvs); simpl;
      destruct (dict_lookup "type" kvs); simpl; discriminate.
  - destruct (substring_of "name" s); simpl; [reflexivity|].
    destruct (substring_of "type" s); simpl; [reflexivity|discriminate].
Qed.

Lemma create_resource_raise g_user e st x :
  fst (create_resource g_user tt e st) = Raise x ->
  resources (snd (create_resource g_user tt e st)) = resources st.
Proof.
  unfold create_resource. unfold_m. rewrite check_opa_permission_run.
  destruct (opa_decision _) as [allowed|y]; [|reflexivity].
  destruct (truthy allowed); simpl; [|discriminate].
  destruct (py_get (request_json e) "name" PNone) as [new_name|]; [|reflexivity].
  destruct (py_get (request_json e) "type" (PStr "document")) as [new_type|];
    [discriminate|reflexivity].
Qed.

Lemma delete_resource_raise g_user resource_id e st x :
  fst (delete_resource g_user resource_id e st) = Raise x ->
  resources (snd (delete_resource g_user resource_id e st)) = resources st.
Proof.
  unfold delete_resource, find_resource. unfold_m.
  destruct (list_find _ (resources st)) as [[i r0]|]; [|discriminate].
  rewrite check_opa_permission_run.
  destruct (opa_decision _) as [allowed|y]; [|reflexivity].
  destruct (truthy allowed); discriminate.
Qed.

Lemma require_auth_raise {Args} (f : User.t -> Args -> M response) args e st x :
  (forall g_user,
      fst (f g_user args e st) = Raise x ->
      resources (snd (f g_user args e st)) = resources st) ->
  fst (require_auth f args e st) = Raise x ->
  resources (snd (require_auth f args e st)) = resources st.
Proof.
  intros Hf.
  destruct (require_auth_outcomes Args f args e st)
    as [(resp & _ & ->)|[(z & _ & ->)|(h & c & s & g_user & _ & _ & _ & _ & _ & ->)]];
    [reflexivity|reflexivity|apply Hf].
Qed.

(** X17.  No partial writes.  When serving a request ends in an
    exception that nothing handles, whatever the route, the store and
    the id counter are as they were before the request. *)
Theorem dispatch_raise_keeps_store :
  forall r e st x,
    fst (dispatch r e st) = Raise x ->
    resources (snd (dispatch r e st)) = resources st
    /\ next_resource_id (snd (dispatch r e st)) = next_resource_id st.
Proof.
  intros r e st x Hraise.
  assert (Hres : resources (snd (dispatch r e st)) = resources st).
  { destruct r; simpl in *.
    - reflexivity.
    - now rewrite login_state.
    - apply (require_auth_raise _ _ _ _ x); [|exact Hraise].
      intros. now rewrite list_resources_state.
    - apply (require_auth_raise _ _ _ _ x); [|exact Hraise].
      intros g. apply create_resource_raise.
    - apply (require_auth_raise _ _ _ _ x); [|exact Hraise].
      intros g _. apply get_resource_store.
    - apply (require_auth_raise _ _ _ _ x); [|exact Hraise].
      intros g. apply update_resource_raise.
    - apply (require_auth_raise _ _ _ _ x); [|exact Hraise].
      intros g. apply delete_resource_raise.
    - apply (require_auth_raise _ _ _ _ x); [|exact Hraise].
      intros. now rewrite list_tenants_state.
    - apply (require_auth_raise _ _ _ _ x); [|exact Hraise].
      intros. now rewrite get_tenant_state. }
  split; [exact Hres|].
  destruct (dispatch_changes_store r e st)
    as [_ Hn|r' ? ? Hres' _ _ _ _ _|? ? _ _ Hn _|? _ Hn _]; try exact Hn.
  rewrite Hres in Hres'. exfalso.
  apply (f_equal (@length Resource.t)) in Hres'.
  rewrite length_app in Hres'. simpl in Hres'. lia.
Qed.

(** bob sends a create request whose body is a JSON array: the check
    allows, and reading the name raises [AttributeError]. *)
Lemma dispatch_raise_keeps_store_witness :
  let e := world (Some "Bearer bob.token") (PList [PStr "memo"]) opa_allows in
  fst (dispatch CreateResource e initial_state) = Raise AttributeError
  /\ resources (snd (dispatch CreateResource e initial_state))
     = resources initial_state
  /\ next_resource_id (snd (dispatch CreateResource e initial_state))
     = next_resource_id initial_state.
Proof.
  intros e. split; [reflexivity|].
  exact (dispatch_raise_keeps_store CreateResource e initial_state AttributeError
           eq_refl).
Defined.

(** ** A decision point that keeps to the protocol *)

(** X18.  When the decision point answers 200 with an object whose
    [result] is the boolean [b], the permission check returns [b].  A
    create request with an object as body is then answered 403, with
    the store untouched, if [b] is false; if [b] is true it is answered
    201 and appends the resource made of the counter as id, the
    caller's tenant, the [name] of the body, or [None] without one, and
    the [type] of the body, or "document" without one: no other entry
    of the body is read. *)
Theorem create_resource_outcome :
  forall g_user e st kvs answer b,
    request_json e = PDict kvs ->
    requests_post e OPA_URL (opa_query g_user "create" None) 2
    = Return {| status_code := 200; content := JSON (PDict answer) |} ->
    dict_lookup "result" answer = Some (PBool b) ->
    fst (check_opa_permission g_user "create" None e st) = Return (PBool b)
    /\ create_resource g_user tt e st
       = let st1 := record_query (opa_query g_user "create" None) st in
         let r := Resource.mk (next_resource_id st) (User.tenant g_user)
                    (match dict_lookup "name" kvs with Some v => v | None => PNone end)
                    (match dict_lookup "type" kvs with
                     | Some v => v
                     | None => PStr "document"
                     end) in
         if b
         then (Return (jsonify (PDict [("resource", Resource.to_py r)]) 201),
               set_next_resource_id (next_resource_id st + 1)
                 (set_resources (resources st ++ [r]) st1))
         else (Return (jsonify (error "Forbidden") 403), st1).
Proof.
  intros g_user e st kvs answer b Hjson Hpost Hresult.
  assert (Hd : opa_decision (requests_post e OPA_URL (opa_query g_user "create" None) 2)
               = Return (PBool b)).
  { rewrite Hpost. simpl. now rewrite Hresult. }
  split; [now rewrite check_opa_permission_run, Hd|].
  unfold create_resource. unfold bind at 1.
  rewrite check_opa_permission_run, Hd. simpl.
  destruct b; simpl; [|reflexivity].
  unfold_m. rewrite Hjson. reflexivity.
Qed.

(** bob creates a resource without a type, sending an id and a tenant
    of his own choice. *)
Lemma create_resource_outcome_witness :
  let e := world (Some "Bearer bob.token")
                 (PDict [("id", PInt 1); ("tenant", PStr "globex");
                         ("name", PStr "memo")])
                 opa_allows in
  fst (create_resource bob tt e initial_state)
  = Return (jsonify
              (PDict [("resource",
                       Resource.to_py
                         (Resource.mk 5 "acme" (PStr "memo") (PStr "document")))])
              201).
Proof.
  intros e.
  rewrite (proj2 (create_resource_outcome bob e initial_state
                    [("id", PInt 1); ("tenant", PStr "globex"); ("name", PStr "memo")]
                    [("result", PBool true)] true eq_refl eq_refl eq_refl)).
  reflexivity.
Defined.


(** ** Ids over a run of requests *)





